(** * DesignFin: the derived-financial-state pipeline

    A shallow embedding of the logic kernel of the DesignFin calculator
    (constants.ts, types.ts, App.tsx and components/MaterialManagerModal.tsx):
    development amortisation, material costing, COGS, the per-channel
    scenario engine and the edit handlers that write into the state.

    JavaScript numbers are modelled with their special values (NaN and the
    two infinities) and with exact rational arithmetic on the finite ones:
    rounding, overflow and the sign of zero are abstracted away. *)

From Stdlib Require Import ZArith QArith Qround Qreduction List String Ascii Bool Lia.
From Stdlib Require Import DecimalString Lqa.
Import ListNotations.

Local Open Scope Z_scope.

(** ** JavaScript numbers *)

Module JS.

Inductive number : Type :=
| Fin (q : Q)
| PInf
| NInf
| NaN.

(** A decimal literal [n / d], kept in lowest terms. *)
Definition num (n : Z) (d : positive) : number := Fin (Qred (n # d)).

Definition zero : number := Fin 0.

Definition Qsign (q : Q) : comparison := (Qnum q ?= 0).

Definition Qltb (x y : Q) : bool := negb (Qle_bool y x).

(** Sign of a number that is not NaN ([Eq] stands for zero). *)
Definition sign (a : number) : comparison :=
  match a with
  | Fin q => Qsign q
  | PInf => Gt
  | NInf => Lt
  | NaN => Eq
  end.

Definition inf_of (s : comparison) : number :=
  match s with
  | Gt => PInf
  | Lt => NInf
  | Eq => NaN
  end.

Definition sign_mul (s t : comparison) : comparison :=
  match s, t with
  | Eq, _ | _, Eq => Eq
  | Gt, Gt | Lt, Lt => Gt
  | _, _ => Lt
  end.

Definition neg (a : number) : number :=
  match a with
  | Fin q => Fin (Qred (- q))
  | PInf => NInf
  | NInf => PInf
  | NaN => NaN
  end.

(** [a + b] *)
Definition add (a b : number) : number :=
  match a, b with
  | NaN, _ | _, NaN => NaN
  | Fin x, Fin y => Fin (Qred (x + y))
  | PInf, NInf | NInf, PInf => NaN
  | PInf, _ | _, PInf => PInf
  | NInf, _ | _, NInf => NInf
  end.

(** [a - b] *)
Definition sub (a b : number) : number :=
  match a, b with
  | NaN, _ | _, NaN => NaN
  | Fin x, Fin y => Fin (Qred (x - y))
  | PInf, PInf | NInf, NInf => NaN
  | PInf, _ | _, NInf => PInf
  | NInf, _ | _, PInf => NInf
  end.

(** [a * b] *)
Definition mul (a b : number) : number :=
  match a, b with
  | NaN, _ | _, NaN => NaN
  | Fin x, Fin y => Fin (Qred (x * y))
  | _, _ => inf_of (sign_mul (sign a) (sign b))
  end.

(** [a / b]; the single zero of the model divides as +0. *)
Definition div (a b : number) : number :=
  match a, b with
  | NaN, _ | _, NaN => NaN
  | Fin x, Fin y =>
      match Qsign y with
      | Eq => inf_of (Qsign x)
      | _ => Fin (Qred (x / y))
      end
  | Fin _, _ => zero
  | _, Fin y =>
      match Qsign y with
      | Lt => neg a
      | _ => a
      end
  | _, _ => NaN
  end.

(** [a > b] *)
Definition gt (a b : number) : bool :=
  match a, b with
  | Fin x, Fin y => Qltb y x
  | PInf, Fin _ | PInf, NInf | Fin _, NInf => true
  | _, _ => false
  end.

(** [a <= b] *)
Definition le (a b : number) : bool :=
  match a, b with
  | NaN, _ | _, NaN => false
  | _, _ => negb (gt a b)
  end.

(** [a === b] *)
Definition strict_eq (a b : number) : bool :=
  match a, b with
  | Fin x, Fin y => Qeq_bool x y
  | PInf, PInf | NInf, NInf => true
  | _, _ => false
  end.

Definition isNaN (a : number) : bool :=
  match a with
  | NaN => true
  | _ => false
  end.

Definition isFinite (a : number) : bool :=
  match a with
  | Fin _ => true
  | _ => false
  end.

(** ToBoolean on a number: 0 and NaN are falsy. *)
Definition truthy (a : number) : bool :=
  match a with
  | Fin q => match Qsign q with Eq => false | _ => true end
  | NaN => false
  | _ => true
  end.

(** [a || b] on numbers *)
Definition or_else (a b : number) : number :=
  if truthy a then a else b.

(** [Math.max(a, b)] *)
Definition Math_max (a b : number) : number :=
  match a, b with
  | NaN, _ | _, NaN => NaN
  | _, _ => if gt a b then a else b
  end.

(** [Math.ceil(a)] *)
Definition Math_ceil (a : number) : number :=
  match a with
  | Fin q => Fin (inject_Z (Qceiling q))
  | _ => a
  end.

(** *** parseFloat

    Strings are sequences of code units below 256.  The value of the
    longest prefix that is a StrDecimalLiteral, after leading white space;
    NaN when there is none. *)

Definition is_white (c : ascii) : bool :=
  let n := N_of_ascii c in
  ((9 <=? n) && (n <=? 13) || (n =? 32) || (n =? 160))%N.

Fixpoint trim_start (s : string) : string :=
  match s with
  | String c r => if is_white c then trim_start r else s
  | EmptyString => s
  end.

Definition digit_of (c : ascii) : option Z :=
  let n := N_of_ascii c in
  if ((48 <=? n) && (n <=? 57))%N then Some (Z.of_N n - 48) else None.

(** The leading decimal digits of [s] and what follows them. *)
Fixpoint span_digits (s : string) : list Z * string :=
  match s with
  | String c r =>
      match digit_of c with
      | Some d => let '(ds, rest) := span_digits r in (d :: ds, rest)
      | None => ([], s)
      end
  | EmptyString => ([], s)
  end.

Definition digits_value (ds : list Z) : Z :=
  fold_left (fun acc d => acc * 10 + d) ds 0.

(** A sign character, if any: [true] for a minus. *)
Definition take_sign (s : string) : bool * string :=
  match s with
  | String "+" r => (false, r)
  | String "-" r => (true, r)
  | _ => (false, s)
  end.

(** The exponent of an ExponentPart at the head of [s], 0 when there is none. *)
Definition exponent_part (s : string) : Z :=
  match s with
  | String c r =>
      if (Ascii.eqb c "e" || Ascii.eqb c "E")%bool then
        let '(eneg, r') := take_sign r in
        match fst (span_digits r') with
        | [] => 0
        | ds => if eneg then - digits_value ds else digits_value ds
        end
      else 0
  | EmptyString => 0
  end.

Definition parseFloat (s : string) : number :=
  let '(sneg, u) := take_sign (trim_start s) in
  if String.prefix "Infinity" u then (if sneg then NInf else PInf)
  else
    let '(ip, r1) := span_digits u in
    let '(fp, r2) :=
      match r1 with
      | String "." r => span_digits r
      | _ => ([], r1)
      end in
    match ip ++ fp with
    | [] => NaN
    | ds =>
        let m := digits_value ds in
        let e := exponent_part r2 - Z.of_nat (List.length fp) in
        let v := (inject_Z m * Qpower (10 # 1) e)%Q in
        Fin (Qred (if sneg then - v else v))
    end.

End JS.

Import JS.

(** ** Data model (types.ts) *)

Record CostItem : Type := mkCostItem {
  ci_id : string;
  ci_name : string;
  amount : number
}.

Record MaterialItem : Type := mkMaterialItem {
  m_id : string;
  m_name : string;
  cost : number;
  qtyPerUnit : number;
  bufferUnits : number;
  unitCost : number;
  notes : string
}.

Record SalesScenario : Type := mkSalesScenario {
  s_id : string;
  s_name : string;
  s_discountPercent : number;
  commissionPercent : number;
  description : string
}.

(** [ScenarioResult extends SalesScenario]: the five inherited fields come first. *)
Record ScenarioResult : Type := mkScenarioResult {
  r_id : string;
  r_name : string;
  r_discountPercent : number;
  r_commissionPercent : number;
  r_description : string;
  netRevenue : number;
  grossMargin : number;
  profit : number;
  breakEvenUnits : number;
  isProfitable : bool;
  roi : number
}.

Record ScenarioConfig : Type := mkScenarioConfig {
  c_id : string;
  c_discountPercent : number
}.

Record FinancialState : Type := mkFinancialState {
  devCosts : list CostItem;
  amortizationQty : number;
  batchSize : number;
  wasteCount : number;
  materials : list MaterialItem;
  publicPrice : number;
  fixedMonthlyExpenses : number;
  designerRoyaltyPercent : number;
  customScenarios : list ScenarioConfig
}.

(** ** Constants (constants.ts) *)

Definition DEFAULT_SCENARIOS : list SalesScenario :=
  [ mkSalesScenario "direct" "Direct Sale" (num 0 1) (num 0 1)
      "Direct to consumer (Website)";
    mkSalesScenario "card" "Card Sale" (num 35 1000) (num 0 1)
      "Processing fees included";
    mkSalesScenario "specifier" "Architect/Specifier" (num 15 100) (num 0 1)
      "Trade discount";
    mkSalesScenario "retail" "Retail Store" (num 50 100) (num 0 1)
      "Standard wholesale";
    mkSalesScenario "distributor" "Distributor" (num 60 100) (num 0 1)
      "Volume partner";
    mkSalesScenario "agent" "Sales Agent" (num 50 100) (num 25 1000)
      "Wholesale + Commission" ].

Definition INITIAL_STATE : FinancialState :=
  {| devCosts :=
       [ mkCostItem "1" "Industrial Design" (num 5000 1);
         mkCostItem "2" "Prototyping" (num 1200 1);
         mkCostItem "3" "Tooling" (num 3500 1) ];
     amortizationQty := num 1000 1;
     batchSize := num 50 1;
     wasteCount := num 2 1;
     materials :=
       [ mkMaterialItem "1" "Aluminum 6061" (num 250 1) zero zero zero "Manual entry";
         mkMaterialItem "2" "Packaging" (num 50 1) zero zero zero "Manual entry";
         mkMaterialItem "3" "Powder Coating" (num 150 1) zero zero zero "Manual entry" ];
     publicPrice := num 85 1;
     fixedMonthlyExpenses := num 2500 1;
     designerRoyaltyPercent := num 5 100;
     customScenarios :=
       map (fun s => mkScenarioConfig (s_id s) (s_discountPercent s)) DEFAULT_SCENARIOS |}.

(** ** Logic kernel (App.tsx) *)

(** *** Module A: development amortisation *)

Definition totalDevCost (state : FinancialState) : number :=
  fold_left (fun acc item => add acc (amount item)) (devCosts state) zero.

Definition amortPerUnit (state : FinancialState) : number :=
  if gt (amortizationQty state) zero
  then div (totalDevCost state) (amortizationQty state)
  else zero.

(** *** Module B: material costing *)

Definition totalBatchMaterialCost (state : FinancialState) : number :=
  fold_left (fun acc item => add acc (cost item)) (materials state) zero.

Definition effectiveUnits (state : FinancialState) : number :=
  Math_max zero (sub (batchSize state) (wasteCount state)).

Definition materialCostPerUnit (state : FinancialState) : number :=
  if gt (effectiveUnits state) zero
  then div (totalBatchMaterialCost state) (effectiveUnits state)
  else zero.

Definition COGS (state : FinancialState) : number :=
  add (materialCostPerUnit state) (amortPerUnit state).

(** *** Module C: scenarios *)

(** [state.customScenarios?.find(s => s.id === defaultScenario.id)] *)
Definition findOverride (state : FinancialState) (defaultScenario : SalesScenario)
  : option ScenarioConfig :=
  find (fun s => String.eqb (c_id s) (s_id defaultScenario)) (customScenarios state).

Definition currentDiscount (state : FinancialState) (defaultScenario : SalesScenario)
  : number :=
  match findOverride state defaultScenario with
  | Some override => c_discountPercent override
  | None => s_discountPercent defaultScenario
  end.

Definition netRevenueOf (state : FinancialState) (defaultScenario : SalesScenario)
  : number :=
  mul (publicPrice state) (sub (num 1 1) (currentDiscount state defaultScenario)).

Definition royaltyAmount (state : FinancialState) (defaultScenario : SalesScenario)
  : number :=
  mul (netRevenueOf state defaultScenario) (designerRoyaltyPercent state).

Definition commissionAmount (state : FinancialState) (defaultScenario : SalesScenario)
  : number :=
  mul (netRevenueOf state defaultScenario) (commissionPercent defaultScenario).

Definition grossMarginOf (state : FinancialState) (defaultScenario : SalesScenario)
  : number :=
  sub (sub (sub (netRevenueOf state defaultScenario) (COGS state))
           (royaltyAmount state defaultScenario))
      (commissionAmount state defaultScenario).

Definition breakEvenUnitsOf (state : FinancialState) (defaultScenario : SalesScenario)
  : number :=
  if gt (grossMarginOf state defaultScenario) zero
  then Math_ceil (div (fixedMonthlyExpenses state) (grossMarginOf state defaultScenario))
  else PInf.

(** The body of the callback of [DEFAULT_SCENARIOS.map]. *)
Definition scenarioResult (state : FinancialState) (defaultScenario : SalesScenario)
  : ScenarioResult :=
  let grossMargin := grossMarginOf state defaultScenario in
  let profit := grossMargin in
  {| r_id := s_id defaultScenario;
     r_name := s_name defaultScenario;
     r_discountPercent := currentDiscount state defaultScenario;
     r_commissionPercent := commissionPercent defaultScenario;
     r_description := description defaultScenario;
     netRevenue := netRevenueOf state defaultScenario;
     grossMargin := grossMargin;
     profit := profit;
     breakEvenUnits := breakEvenUnitsOf state defaultScenario;
     isProfitable := gt profit zero;
     roi := if gt (COGS state) zero
            then mul (div profit (COGS state)) (num 100 1)
            else zero |}.

Definition scenarios (state : FinancialState) : list ScenarioResult :=
  map (scenarioResult state) DEFAULT_SCENARIOS.

(** *** State updates *)

(** [updateState('materials', v)] and [updateState('customScenarios', v)]:
    a copy of the state with one key replaced. *)
Definition updateMaterials (v : list MaterialItem) (prev : FinancialState)
  : FinancialState :=
  {| devCosts := devCosts prev;
     amortizationQty := amortizationQty prev;
     batchSize := batchSize prev;
     wasteCount := wasteCount prev;
     materials := v;
     publicPrice := publicPrice prev;
     fixedMonthlyExpenses := fixedMonthlyExpenses prev;
     designerRoyaltyPercent := designerRoyaltyPercent prev;
     customScenarios := customScenarios prev |}.

Definition updateCustomScenarios (v : list ScenarioConfig) (prev : FinancialState)
  : FinancialState :=
  {| devCosts := devCosts prev;
     amortizationQty := amortizationQty prev;
     batchSize := batchSize prev;
     wasteCount := wasteCount prev;
     materials := materials prev;
     publicPrice := publicPrice prev;
     fixedMonthlyExpenses := fixedMonthlyExpenses prev;
     designerRoyaltyPercent := designerRoyaltyPercent prev;
     customScenarios := v |}.

(** [{ ...m, cost: v }] *)
Definition withCost (m : MaterialItem) (v : number) : MaterialItem :=
  {| m_id := m_id m;
     m_name := m_name m;
     cost := v;
     qtyPerUnit := qtyPerUnit m;
     bufferUnits := bufferUnits m;
     unitCost := unitCost m;
     notes := notes m |}.

(** The fields are typed [number], so the [typeof] test of the source
    always passes; [m.bufferUnits || 0] is kept. *)
Definition recalculateItem (newBatchSize : number) (m : MaterialItem) : MaterialItem :=
  let qty := qtyPerUnit m in
  let buffer := or_else (bufferUnits m) zero in
  let uCost := unitCost m in
  if (gt uCost zero || gt qty zero)%bool
  then withCost m (mul (add (mul qty newBatchSize) buffer) uCost)
  else m.

Definition recalculateMaterials (currentMaterials : list MaterialItem)
    (newBatchSize : number) : list MaterialItem :=
  map (recalculateItem newBatchSize) currentMaterials.

Definition updateBatchSize (newSize : number) (state : FinancialState)
  : FinancialState :=
  {| devCosts := devCosts state;
     amortizationQty := amortizationQty state;
     batchSize := newSize;
     wasteCount := wasteCount state;
     materials := recalculateMaterials (materials state) newSize;
     publicPrice := publicPrice state;
     fixedMonthlyExpenses := fixedMonthlyExpenses state;
     designerRoyaltyPercent := designerRoyaltyPercent state;
     customScenarios := customScenarios state |}.

(** A field of a MaterialItem together with a value of the field's type:
    the well-typed pairs [(field, value)] of [handleMaterialChange] and
    [updateRow]. *)
Inductive MaterialEdit : Type :=
| F_id (value : string)
| F_name (value : string)
| F_notes (value : string)
| F_cost (value : number)
| F_qtyPerUnit (value : number)
| F_bufferUnits (value : number)
| F_unitCost (value : number).

(** [{ ...item, [field]: value }] *)
Definition setField (item : MaterialItem) (e : MaterialEdit) : MaterialItem :=
  match e with
  | F_id v => mkMaterialItem v (m_name item) (cost item) (qtyPerUnit item)
                (bufferUnits item) (unitCost item) (notes item)
  | F_name v => mkMaterialItem (m_id item) v (cost item) (qtyPerUnit item)
                  (bufferUnits item) (unitCost item) (notes item)
  | F_notes v => mkMaterialItem (m_id item) (m_name item) (cost item) (qtyPerUnit item)
                   (bufferUnits item) (unitCost item) v
  | F_cost v => withCost item v
  | F_qtyPerUnit v => mkMaterialItem (m_id item) (m_name item) (cost item) v
                        (bufferUnits item) (unitCost item) (notes item)
  | F_bufferUnits v => mkMaterialItem (m_id item) (m_name item) (cost item)
                         (qtyPerUnit item) v (unitCost item) (notes item)
  | F_unitCost v => mkMaterialItem (m_id item) (m_name item) (cost item)
                      (qtyPerUnit item) (bufferUnits item) v (notes item)
  end.

Definition handleMaterialChange (id : string) (e : MaterialEdit)
    (state : FinancialState) : FinancialState :=
  let newMats :=
    map (fun item => if String.eqb (m_id item) id then setField item e else item)
        (materials state) in
  updateMaterials newMats state.

(** The callback of [currentScenarios.map]:
    [s.id === id ? { ...s, discountPercent: newPercent } : s]. *)
Definition writeDiscount (id : string) (newPercent : number) (s : ScenarioConfig)
  : ScenarioConfig :=
  if String.eqb (c_id s) id then mkScenarioConfig (c_id s) newPercent else s.

(** The override table has type [ScenarioConfig[]], and an array is truthy:
    the [|| DEFAULT_SCENARIOS.map(...)] fallback of the source is never taken. *)
Definition handleScenarioDiscountChange (id : string) (value : string)
    (state : FinancialState) : FinancialState :=
  let floatVal := parseFloat value in
  let newPercent := if isNaN floatVal then zero else div floatVal (num 100 1) in
  let currentScenarios := customScenarios state in
  let newScenarios := map (writeDiscount id newPercent) currentScenarios in
  updateCustomScenarios newScenarios state.

(** ** The detailed material editor (MaterialManagerModal.tsx) *)

(** The callback of [prev.map] in [updateRow]; [Number(value)] is the
    identity on a number. *)
Definition updateRowItem (batchSize : number) (id : string) (e : MaterialEdit)
    (item : MaterialItem) : MaterialItem :=
  if negb (String.eqb (m_id item) id) then item
  else
    let updatedItem := setField item e in
    match e with
    | F_qtyPerUnit v =>
        withCost updatedItem
          (mul (add (mul v batchSize) (bufferUnits item)) (unitCost item))
    | F_bufferUnits v =>
        withCost updatedItem
          (mul (add (mul (qtyPerUnit item) batchSize) v) (unitCost item))
    | F_unitCost v =>
        withCost updatedItem
          (mul (add (mul (qtyPerUnit item) batchSize) (bufferUnits item)) v)
    | _ => updatedItem
    end.

Definition updateRow (batchSize : number) (id : string) (e : MaterialEdit)
    (prev : list MaterialItem) : list MaterialItem :=
  map (updateRowItem batchSize id e) prev.

(** [handleSave]: [onSave(localMaterials)] is [updateState('materials', ...)]. *)
Definition handleSave (localMaterials : list MaterialItem) (state : FinancialState)
  : FinancialState :=
  updateMaterials localMaterials state.

(** The mode of an item, as the batch-size path decides it. *)
Definition isCalculated (m : MaterialItem) : bool :=
  (gt (unitCost m) zero || gt (qtyPerUnit m) zero)%bool.

Definition isManual (m : MaterialItem) : bool :=
  (strict_eq (qtyPerUnit m) zero && strict_eq (unitCost m) zero)%bool.

Definition handleClearAll (state : FinancialState) : FinancialState :=
  {| devCosts := [];
     amortizationQty := zero;
     batchSize := zero;
     wasteCount := zero;
     materials := [];
     publicPrice := zero;
     fixedMonthlyExpenses := zero;
     designerRoyaltyPercent := zero;
     customScenarios :=
       map (fun s => mkScenarioConfig (s_id s) zero) DEFAULT_SCENARIOS |}.

Definition handleResetDefaults (state : FinancialState) : FinancialState :=
  INITIAL_STATE.

(** ** Further JavaScript primitives *)

(** [a < b] *)
Definition lt (a b : number) : bool := gt b a.

(** [Math.round(a)]: the nearest integer, a tie going up. *)
Definition Math_round (a : number) : number :=
  match a with
  | Fin q => Fin (inject_Z (Qfloor (q + (1 # 2))))
  | _ => a
  end.

(** [n.toString()] on a non-negative integer. *)
Definition toStringN (n : N) : string := NilEmpty.string_of_uint (N.to_uint n).

(** ** Item lists and scalar inputs (App.tsx) *)

Definition updateDevCosts (v : list CostItem) (prev : FinancialState)
  : FinancialState :=
  {| devCosts := v;
     amortizationQty := amortizationQty prev;
     batchSize := batchSize prev;
     wasteCount := wasteCount prev;
     materials := materials prev;
     publicPrice := publicPrice prev;
     fixedMonthlyExpenses := fixedMonthlyExpenses prev;
     designerRoyaltyPercent := designerRoyaltyPercent prev;
     customScenarios := customScenarios prev |}.

Definition updateWasteCount (v : number) (prev : FinancialState) : FinancialState :=
  {| devCosts := devCosts prev;
     amortizationQty := amortizationQty prev;
     batchSize := batchSize prev;
     wasteCount := v;
     materials := materials prev;
     publicPrice := publicPrice prev;
     fixedMonthlyExpenses := fixedMonthlyExpenses prev;
     designerRoyaltyPercent := designerRoyaltyPercent prev;
     customScenarios := customScenarios prev |}.

(** A field of a CostItem with a value of its type. *)
Inductive CostEdit : Type :=
| G_id (value : string)
| G_name (value : string)
| G_amount (value : number).

Definition setCostField (item : CostItem) (e : CostEdit) : CostItem :=
  match e with
  | G_id v => mkCostItem v (ci_name item) (amount item)
  | G_name v => mkCostItem (ci_id item) v (amount item)
  | G_amount v => mkCostItem (ci_id item) (ci_name item) v
  end.

Definition handleDevCostChange (id : string) (e : CostEdit) (state : FinancialState)
  : FinancialState :=
  let newCosts :=
    map (fun item => if String.eqb (ci_id item) id then setCostField item e else item)
        (devCosts state) in
  updateDevCosts newCosts state.

(** [now] is the reading of [Date.now()]. *)
Definition addDevCost (now : N) (state : FinancialState) : FinancialState :=
  let newId :=
    (toStringN (N.of_nat (List.length (devCosts state)) + 1) ++ toStringN now)%string in
  updateDevCosts (devCosts state ++ [mkCostItem newId "New Expense" zero]) state.

Definition removeDevCost (id : string) (state : FinancialState) : FinancialState :=
  updateDevCosts (filter (fun i => negb (String.eqb (ci_id i) id)) (devCosts state))
                 state.

Definition addMaterial (now : N) (state : FinancialState) : FinancialState :=
  let newId :=
    (toStringN (N.of_nat (List.length (materials state)) + 1) ++ toStringN now)%string in
  updateMaterials
    (materials state ++
       [{| m_id := newId; m_name := "New Material"; cost := zero;
           qtyPerUnit := zero; bufferUnits := zero; unitCost := zero;
           notes := EmptyString |}])
    state.

Definition removeMaterial (id : string) (state : FinancialState) : FinancialState :=
  updateMaterials (filter (fun i => negb (String.eqb (m_id i) id)) (materials state))
                  state.

(** [scenarios.find(s => s.id === 'direct')?.roi || 0] *)
Definition directRoi (state : FinancialState) : number :=
  match find (fun s => String.eqb (r_id s) "direct") (scenarios state) with
  | Some s => or_else (roi s) zero
  | None => zero
  end.

(** The cost field of a material:
    [handleMaterialChange(mat.id, 'cost', parseFloat(e.target.value) || 0)]. *)
Definition onCostInput (id : string) (text : string) (state : FinancialState)
  : FinancialState :=
  handleMaterialChange id (F_cost (or_else (parseFloat text) zero)) state.

(** ** The detailed material editor, continued (MaterialManagerModal.tsx) *)

Definition addRow (now : N) (localMaterials : list MaterialItem)
  : list MaterialItem :=
  let newId := toStringN now in
  localMaterials ++
    [{| m_id := newId; m_name := EmptyString; qtyPerUnit := zero;
        bufferUnits := zero; unitCost := zero; cost := zero;
        notes := EmptyString |}].

Definition removeRow (id : string) (localMaterials : list MaterialItem)
  : list MaterialItem :=
  filter (fun m => negb (String.eqb (m_id m) id)) localMaterials.

Definition totalBatchCost (localMaterials : list MaterialItem) : number :=
  fold_left (fun sum m => add sum (cost m)) localMaterials zero.

(** The share column:
    [totalBatchCost > 0 ? Math.round((item.cost / totalBatchCost) * 100) : 0]. *)
Definition sharePercent (localMaterials : list MaterialItem) (item : MaterialItem)
  : number :=
  if gt (totalBatchCost localMaterials) zero
  then Math_round (mul (div (cost item) (totalBatchCost localMaterials)) (num 100 1))
  else zero.

(** The three numeric fields of a row:
    [updateRow(item.id, field, parseFloat(e.target.value) || 0)]. *)
Definition onQtyPerUnitInput (batchSize : number) (id text : string)
    (prev : list MaterialItem) : list MaterialItem :=
  updateRow batchSize id (F_qtyPerUnit (or_else (parseFloat text) zero)) prev.

Definition onBufferUnitsInput (batchSize : number) (id text : string)
    (prev : list MaterialItem) : list MaterialItem :=
  updateRow batchSize id (F_bufferUnits (or_else (parseFloat text) zero)) prev.

Definition onUnitCostInput (batchSize : number) (id text : string)
    (prev : list MaterialItem) : list MaterialItem :=
  updateRow batchSize id (F_unitCost (or_else (parseFloat text) zero)) prev.

(** ** The production efficiency card (ProductionEfficiencyCard.tsx) *)

Record CardProps : Type := mkCardProps {
  p_batchSize : number;
  p_wasteCount : number;
  p_totalBatchMaterialCost : number;
  amortizationPerUnit : number;
  p_publicPrice : number
}.

(** The props App passes to the card. *)
Definition cardProps (state : FinancialState) : CardProps :=
  {| p_batchSize := batchSize state;
     p_wasteCount := wasteCount state;
     p_totalBatchMaterialCost := totalBatchMaterialCost state;
     amortizationPerUnit := amortPerUnit state;
     p_publicPrice := publicPrice state |}.

Definition yieldRate (p : CardProps) : number :=
  if gt (p_batchSize p) zero
  then div (sub (p_batchSize p) (p_wasteCount p)) (p_batchSize p)
  else zero.

(** The card's own [effectiveUnits], without the clamp at 0. *)
Definition cardEffectiveUnits (p : CardProps) : number :=
  sub (p_batchSize p) (p_wasteCount p).

Definition currentUnitMatCost (p : CardProps) : number :=
  if gt (cardEffectiveUnits p) zero
  then div (p_totalBatchMaterialCost p) (cardEffectiveUnits p)
  else zero.

Definition currentTotalUnitCost (p : CardProps) : number :=
  add (currentUnitMatCost p) (amortizationPerUnit p).

Definition maxWaste (p : CardProps) : number :=
  Math_max zero (sub (p_batchSize p) (num 1 1)).

Definition costIncreaseFactor (p : CardProps) : number :=
  if gt (yieldRate p) zero then div (num 1 1) (yieldRate p) else zero.

Definition isUnprofitable (p : CardProps) : bool :=
  gt (currentTotalUnitCost p) (p_publicPrice p).

Record ChartPoint : Type := mkChartPoint {
  waste : number;
  pt_cost : number;
  price : number
}.

(** The body of the loop of [chartData] at counter [i]; [toFixed2] stands
    for [x => parseFloat(x.toFixed(2))], the two-decimal rounding of a
    binary64 value, which is left open here. *)
Definition chartPoint (toFixed2 : number -> number) (p : CardProps) (i : Z)
  : ChartPoint :=
  let eff := sub (p_batchSize p) (Fin (inject_Z i)) in
  let matCost := div (p_totalBatchMaterialCost p) eff in
  let total := add matCost (amortizationPerUnit p) in
  {| waste := Fin (inject_Z i);
     pt_cost := toFixed2 total;
     price := p_publicPrice p |}.

(** [i++] on the loop counter, a JS number holding a whole number: exact
    below 2^53, where 2^53 + 1 rounds back to 2^53. *)
Definition nextCounter (i : Z) : Z := if i <? 2 ^ 53 then i + 1 else i.

(** The largest length of a JS array; [push] throws beyond it. *)
Definition maxArrayLength : Z := 2 ^ 32 - 1.

(** [for (let i = 0; i < batchSize; i++) data.push(...)], run for at most
    [fuel] tests of the loop condition.  [None] when no list is returned:
    the loop is still running after [fuel] tests, or [data.push] threw at
    the array length limit. *)
Fixpoint chartLoop (toFixed2 : number -> number) (p : CardProps) (fuel : nat)
    (i : Z) (data : list ChartPoint) : option (list ChartPoint) :=
  match fuel with
  | O => None
  | S fuel' =>
      if lt (Fin (inject_Z i)) (p_batchSize p)
      then
        if Z.of_nat (List.length data) <? maxArrayLength
        then chartLoop toFixed2 p fuel' (nextCounter i)
               (data ++ [chartPoint toFixed2 p i])
        else None
      else Some data
  end.

Definition chartData (toFixed2 : number -> number) (p : CardProps) (fuel : nat)
  : option (list ChartPoint) :=
  chartLoop toFixed2 p fuel 0 [].

(** A number whose fraction, if any, is in lowest terms: what the
    arithmetic operations return. *)
Definition reduced (a : number) : Prop :=
  match a with
  | Fin q => Qred q = q
  | _ => True
  end.

(** The override table lists the default scenario ids, in declaration
    order: the shape [INITIAL_STATE] and [handleClearAll] give it. *)
Definition tableCoversDefaults (state : FinancialState) : Prop :=
  map c_id (customScenarios state) = map s_id DEFAULT_SCENARIOS.

(** None of the three detail fields of the item is NaN. *)
Definition detailsDefined (m : MaterialItem) : bool :=
  negb (isNaN (qtyPerUnit m)) && negb (isNaN (bufferUnits m))
  && negb (isNaN (unitCost m)).

(** ** Facts about numbers *)

Example parseFloat_samples :
  parseFloat "abc" = NaN /\ parseFloat EmptyString = NaN /\ parseFloat "." = NaN /\
  parseFloat "35" = num 35 1 /\ parseFloat "  12.5%" = num 125 10 /\
  parseFloat "-.5" = num (-5) 10 /\ parseFloat "5.e1" = num 50 1 /\
  parseFloat "1e-2" = num 1 100 /\ parseFloat "3e" = num 3 1 /\
  parseFloat "-Infinity" = NInf.
Proof. repeat split; vm_compute; reflexivity. Qed.

Example number_samples :
  or_else NaN zero = zero /\ or_else (num 3 1) zero = num 3 1 /\
  sub PInf PInf = NaN /\ mul zero PInf = NaN /\ div (num 1 1) zero = PInf /\
  gt NaN zero = false /\ le NaN zero = false /\
  Math_max zero (num (-2) 1) = zero /\ Math_ceil (num 11737 100) = num 118 1.
Proof. repeat split; vm_compute; reflexivity. Qed.

Section NumberFacts.

Lemma Qsign_Eq_iff (q : Q) : Qsign q = Eq <-> (q == 0)%Q.
Proof.
  unfold Qsign, Qeq. simpl. rewrite Z.compare_eq_iff. lia.
Qed.

Lemma Qltb_true_iff (x y : Q) : Qltb x y = true <-> (x < y)%Q.
Proof.
  unfold Qltb. rewrite negb_true_iff, <- not_true_iff_false, Qle_bool_iff.
  split; [apply Qnot_le_lt | apply Qlt_not_le].
Qed.

Lemma le_gt_false (a b : number) : le a b = true -> gt a b = false.
Proof.
  destruct a, b; simpl; intros H; try discriminate; try reflexivity;
    now apply negb_true_iff in H.
Qed.

Lemma strict_eq_zero_not_gt (a : number) :
  strict_eq a zero = true -> gt a zero = false.
Proof.
  destruct a as [q| | |]; simpl; try discriminate.
  intros H. apply Qeq_bool_iff in H.
  unfold Qltb. apply negb_false_iff, Qle_bool_iff. rewrite H. apply Qle_refl.
Qed.

Lemma gt_zero_sign (q : Q) : gt (Fin q) zero = true -> Qsign q = Gt.
Proof.
  simpl. rewrite Qltb_true_iff. unfold Qlt, Qsign. simpl.
  intros H. apply Z.compare_gt_iff. lia.
Qed.

(** A buffer that is not NaN adds what [buffer || 0] adds. *)
Lemma add_or_else_zero (x buf : number) :
  isNaN buf = false -> add x (or_else buf zero) = add x buf.
Proof.
  destruct buf as [q| | |]; simpl; try discriminate; try reflexivity.
  intros _. unfold or_else. simpl.
  destruct (Qsign q) eqn:E; try reflexivity.
  apply Qsign_Eq_iff in E.
  destruct x as [p| | |]; try reflexivity.
  unfold add, zero. f_equal. apply Qred_complete. now rewrite E.
Qed.

End NumberFacts.

(** ** The default snapshot *)

(** C1: on the default initial state the development costs total 9700 over
    an amortisation quantity of 1000, the three materials are in manual mode
    and total 450, and the derived values are amortPerUnit = 9.7,
    effectiveUnits = 48, materialCostPerUnit = 9.375, COGS = 19.075; the
    retail channel (discount 0.50, commission 0) has netRevenue = 42.5,
    royalty 2.125, grossMargin = 21.3, is profitable and breaks even at
    ceil(2500 / 21.3) = 118 units. *)
Theorem default_state_example :
  totalDevCost INITIAL_STATE = num 9700 1 /\
  amortizationQty INITIAL_STATE = num 1000 1 /\
  List.length (materials INITIAL_STATE) = 3%nat /\
  Forall (fun m => isCalculated m = false) (materials INITIAL_STATE) /\
  totalBatchMaterialCost INITIAL_STATE = num 450 1 /\
  batchSize INITIAL_STATE = num 50 1 /\
  wasteCount INITIAL_STATE = num 2 1 /\
  publicPrice INITIAL_STATE = num 85 1 /\
  designerRoyaltyPercent INITIAL_STATE = num 5 100 /\
  fixedMonthlyExpenses INITIAL_STATE = num 2500 1 /\
  amortPerUnit INITIAL_STATE = num 97 10 /\
  effectiveUnits INITIAL_STATE = num 48 1 /\
  materialCostPerUnit INITIAL_STATE = num 9375 1000 /\
  COGS INITIAL_STATE = num 19075 1000 /\
  exists retail r,
    find (fun s => String.eqb (s_id s) "retail") DEFAULT_SCENARIOS = Some retail /\
    find (fun x => String.eqb (r_id x) "retail") (scenarios INITIAL_STATE) = Some r /\
    r_discountPercent r = num 50 100 /\
    r_commissionPercent r = num 0 1 /\
    netRevenue r = num 425 10 /\
    royaltyAmount INITIAL_STATE retail = num 2125 1000 /\
    commissionAmount INITIAL_STATE retail = num 0 1 /\
    grossMargin r = num 213 10 /\
    profit r = num 213 10 /\
    isProfitable r = true /\
    breakEvenUnits r = Math_ceil (div (num 2500 1) (num 213 10)) /\
    breakEvenUnits r = num 118 1.
Proof.
  do 3 (split; [vm_compute; reflexivity|]).
  split; [repeat constructor|].
  do 10 (split; [vm_compute; reflexivity|]).
  do 2 eexists.
  do 2 (split; [vm_compute; reflexivity|]).
  repeat split; vm_compute; reflexivity.
Qed.

(** ** Batch-size recalculation *)

Section Recalculate.

Variable b : number.

Lemma recalculateItem_calculated (m : MaterialItem) :
  isCalculated m = true ->
  recalculateItem b m =
    withCost m (mul (add (mul (qtyPerUnit m) b) (or_else (bufferUnits m) zero))
                    (unitCost m)).
Proof.
  unfold isCalculated, recalculateItem. now intros ->.
Qed.

Lemma recalculateItem_not_calculated (m : MaterialItem) :
  isCalculated m = false -> recalculateItem b m = m.
Proof.
  unfold isCalculated, recalculateItem. now intros ->.
Qed.

Lemma zero_zero_not_calculated (m : MaterialItem) :
  strict_eq (qtyPerUnit m) zero = true ->
  strict_eq (unitCost m) zero = true ->
  isCalculated m = false.
Proof.
  intros Hq Hu. unfold isCalculated.
  now rewrite (strict_eq_zero_not_gt _ Hq), (strict_eq_zero_not_gt _ Hu).
Qed.

Lemma isCalculated_withCost (m : MaterialItem) (v : number) :
  isCalculated (withCost m v) = isCalculated m.
Proof. reflexivity. Qed.

Lemma recalculateItem_withCost (m : MaterialItem) (v : number) :
  isCalculated m = true ->
  recalculateItem b (withCost m v) = recalculateItem b m.
Proof.
  intros H. rewrite (recalculateItem_calculated m H).
  assert (H' : isCalculated (withCost m v) = true) by exact H.
  rewrite (recalculateItem_calculated (withCost m v) H'). reflexivity.
Qed.

Lemma recalculateItem_idempotent (m : MaterialItem) :
  recalculateItem b (recalculateItem b m) = recalculateItem b m.
Proof.
  destruct (isCalculated m) eqn:E.
  - rewrite (recalculateItem_calculated m E).
    rewrite recalculateItem_withCost by exact E.
    exact (recalculateItem_calculated m E).
  - now rewrite !(recalculateItem_not_calculated m E).
Qed.

End Recalculate.

(** C2, as stated, fails on an item whose bufferUnits is NaN: the source
    reads the buffer as [m.bufferUnits || 0], so the NaN counts as 0 and the
    cost is 1 where the stated formula gives NaN. *)
Lemma recalculate_nan_buffer :
  let m := mkMaterialItem "1" "Steel" zero (num 1 1) NaN (num 1 1) EmptyString in
  (gt (unitCost m) zero || gt (qtyPerUnit m) zero)%bool = true /\
  recalculateMaterials [m] (num 1 1) = [withCost m (num 1 1)] /\
  mul (add (mul (qtyPerUnit m) (num 1 1)) (bufferUnits m)) (unitCost m) = NaN /\
  ~ Forall2 (fun x x' =>
       (gt (unitCost x) zero || gt (qtyPerUnit x) zero)%bool = true ->
       cost x' = mul (add (mul (qtyPerUnit x) (num 1 1)) (bufferUnits x)) (unitCost x))
      [m] (recalculateMaterials [m] (num 1 1)).
Proof.
  repeat split; try (vm_compute; reflexivity).
  intros H. inversion H as [|x x' l l' Hx _]; subst.
  specialize (Hx eq_refl). vm_compute in Hx. discriminate.
Qed.

(** C2 (amended): recalculateMaterials returns a list of the same length
    with order, ids and every field but cost unchanged; an item with
    unitCost > 0 or qtyPerUnit > 0 gets
    cost = (qtyPerUnit * newBatchSize + (bufferUnits || 0)) * unitCost,
    which is (qtyPerUnit * newBatchSize + bufferUnits) * unitCost whenever
    bufferUnits is not NaN; an item with unitCost = 0 and qtyPerUnit = 0
    keeps its cost. *)
Theorem recalculateMaterials_items (ms : list MaterialItem) (b : number) :
  List.length (recalculateMaterials ms b) = List.length ms /\
  map m_id (recalculateMaterials ms b) = map m_id ms /\
  Forall2 (fun m m' =>
     m_id m' = m_id m /\ m_name m' = m_name m /\
     qtyPerUnit m' = qtyPerUnit m /\ bufferUnits m' = bufferUnits m /\
     unitCost m' = unitCost m /\ notes m' = notes m /\
     ((gt (unitCost m) zero || gt (qtyPerUnit m) zero)%bool = true ->
        cost m' = mul (add (mul (qtyPerUnit m) b) (or_else (bufferUnits m) zero))
                      (unitCost m) /\
        (isNaN (bufferUnits m) = false ->
         cost m' = mul (add (mul (qtyPerUnit m) b) (bufferUnits m)) (unitCost m))) /\
     (strict_eq (unitCost m) zero = true ->
      strict_eq (qtyPerUnit m) zero = true ->
      cost m' = cost m))
    ms (recalculateMaterials ms b).
Proof.
  unfold recalculateMaterials. split; [apply length_map|].
  split.
  - rewrite map_map. apply map_ext. intros m.
    unfold recalculateItem. now destruct (_ || _)%bool.
  - induction ms as [|m ms IH]; simpl; constructor; [|exact IH].
    destruct (isCalculated m) eqn:E.
    + rewrite (recalculateItem_calculated b m E). simpl.
      do 6 (split; [reflexivity|]).
      split.
      * intros _. split; [reflexivity|].
        intros Hn. now rewrite add_or_else_zero.
      * intros Hu Hq.
        rewrite (zero_zero_not_calculated m Hq Hu) in E. discriminate.
    + rewrite (recalculateItem_not_calculated b m E).
      do 6 (split; [reflexivity|]).
      split; [|reflexivity].
      intros Hc. unfold isCalculated in E. congruence.
Qed.

(** An item with unitCost = 5 and qtyPerUnit = 2 is recomputed as
    (2 * batchSize + bufferUnits) * 5. *)
Example recalculate_tube :
  recalculateMaterials
    [mkMaterialItem "7" "Tube" zero (num 2 1) (num 3 1) (num 5 1) "6061"]
    (num 50 1)
  = [mkMaterialItem "7" "Tube" (num 515 1) (num 2 1) (num 3 1) (num 5 1) "6061"].
Proof. vm_compute. reflexivity. Qed.

(** C8: batch-size recalculation is idempotent. *)
Theorem recalculateMaterials_idempotent (m : list MaterialItem) (b : number) :
  recalculateMaterials (recalculateMaterials m b) b = recalculateMaterials m b.
Proof.
  unfold recalculateMaterials. rewrite map_map.
  apply map_ext. intros x. apply recalculateItem_idempotent.
Qed.

(** ** Direct cost edits *)

Lemma handleMaterialChange_materials (id : string) (e : MaterialEdit)
    (state : FinancialState) :
  materials (handleMaterialChange id e state) =
  map (fun item => if String.eqb (m_id item) id then setField item e else item)
      (materials state).
Proof. reflexivity. Qed.

(** C9, as stated, fails when two items share the id: the write reaches the
    manual-mode item with that id as well, and no recalculation restores
    its cost. *)
Lemma cost_edit_shared_id :
  let tube := mkMaterialItem "1" "Tube" (num 500 1) (num 2 1) zero (num 5 1) EmptyString in
  let paint := mkMaterialItem "1" "Paint" (num 250 1) zero zero zero EmptyString in
  let state := updateMaterials [tube; paint] INITIAL_STATE in
  In tube (materials state) /\ m_id tube = "1"%string /\
  (gt (unitCost tube) zero || gt (qtyPerUnit tube) zero)%bool = true /\
  recalculateMaterials
    (materials (handleMaterialChange "1" (F_cost (num 7 1)) state)) (num 50 1)
  = [tube; withCost paint (num 7 1)] /\
  recalculateMaterials (materials state) (num 50 1) = [tube; paint] /\
  recalculateMaterials
    (materials (handleMaterialChange "1" (F_cost (num 7 1)) state)) (num 50 1)
  <> recalculateMaterials (materials state) (num 50 1).
Proof.
  cbv zeta.
  split; [now left|]. split; [reflexivity|]. split; [vm_compute; reflexivity|].
  split; [vm_compute; reflexivity|]. split; [vm_compute; reflexivity|].
  vm_compute. discriminate.
Qed.

(** C9 (amended): when every item carrying the id is in calculated mode
    (unitCost > 0 or qtyPerUnit > 0), as when ids are unique and the item
    is calculated, a direct cost write followed by recalculateMaterials
    yields the same list as recalculateMaterials alone. *)
Theorem cost_edit_superseded (state : FinancialState) (id : string)
    (v b : number) :
  (forall m, In m (materials state) -> m_id m = id ->
             (gt (unitCost m) zero || gt (qtyPerUnit m) zero)%bool = true) ->
  recalculateMaterials (materials (handleMaterialChange id (F_cost v) state)) b
  = recalculateMaterials (materials state) b.
Proof.
  intros H. rewrite handleMaterialChange_materials.
  unfold recalculateMaterials. rewrite map_map.
  apply map_ext_in. intros m Hm.
  destruct (String.eqb (m_id m) id) eqn:E; [|reflexivity].
  apply String.eqb_eq in E. simpl.
  apply recalculateItem_withCost. exact (H m Hm E).
Qed.

Lemma cost_edit_superseded_witness :
  let tube := mkMaterialItem "1" "Tube" (num 500 1) (num 2 1) zero (num 5 1) EmptyString in
  let paint := mkMaterialItem "2" "Paint" (num 250 1) zero zero zero EmptyString in
  let state := updateMaterials [tube; paint] INITIAL_STATE in
  (forall m, In m (materials state) -> m_id m = "1"%string ->
             (gt (unitCost m) zero || gt (qtyPerUnit m) zero)%bool = true) /\
  recalculateMaterials
    (materials (handleMaterialChange "1" (F_cost (num 7 1)) state)) (num 50 1)
  = recalculateMaterials (materials state) (num 50 1).
Proof.
  cbv zeta.
  assert (H : forall m,
             In m (materials (updateMaterials
                    [mkMaterialItem "1" "Tube" (num 500 1) (num 2 1) zero (num 5 1) EmptyString;
                     mkMaterialItem "2" "Paint" (num 250 1) zero zero zero EmptyString]
                    INITIAL_STATE)) ->
             m_id m = "1"%string ->
             (gt (unitCost m) zero || gt (qtyPerUnit m) zero)%bool = true).
  { intros m [<-|[<-|[]]] E; [reflexivity | discriminate E]. }
  split; [exact H|].
  exact (cost_edit_superseded _ "1" (num 7 1) (num 50 1) H).
Defined.

(** ** Manual mode across the recomputation paths *)

(** The batch-size path leaves an item with qtyPerUnit = 0 and unitCost = 0
    alone, whatever its bufferUnits. *)
Lemma recalculateMaterials_keeps_manual (ms : list MaterialItem) (b : number) :
  Forall2 (fun m m' =>
     strict_eq (qtyPerUnit m) zero = true ->
     strict_eq (unitCost m) zero = true -> m' = m)
    ms (recalculateMaterials ms b).
Proof.
  induction ms as [|m ms IH]; simpl; constructor; [|exact IH].
  intros Hq Hu. apply recalculateItem_not_calculated.
  now apply zero_zero_not_calculated.
Qed.

(** Saving stores the editor's list as it is. *)
Lemma handleSave_materials (localMaterials : list MaterialItem)
    (state : FinancialState) :
  materials (handleSave localMaterials state) = localMaterials.
Proof. reflexivity. Qed.

(** C5: the detailed editor does not apply the manual-mode policy.  On the
    default "Aluminum 6061" item (qtyPerUnit = 0, unitCost = 0, cost 250)
    an edit of bufferUnits to 5 at batch size 50 overwrites the cost with
    (0 * 50 + 5) * 0 = 0, although the item is still in manual mode; the
    batch-size path keeps the 250 of the same item. *)
Theorem updateRow_overwrites_manual_cost :
  let item := mkMaterialItem "1" "Aluminum 6061" (num 250 1) zero zero zero
                "Manual entry" in
  let edited := mkMaterialItem "1" "Aluminum 6061" zero zero (num 5 1) zero
                  "Manual entry" in
  strict_eq (qtyPerUnit item) zero = true /\
  strict_eq (unitCost item) zero = true /\
  updateRow (num 50 1) "1" (F_bufferUnits (num 5 1)) [item] = [edited] /\
  strict_eq (qtyPerUnit edited) zero = true /\
  strict_eq (unitCost edited) zero = true /\
  cost edited <> cost item /\
  recalculateMaterials [setField item (F_bufferUnits (num 5 1))] (num 50 1)
  = [setField item (F_bufferUnits (num 5 1))] /\
  cost (setField item (F_bufferUnits (num 5 1))) = num 250 1.
Proof.
  cbv zeta. repeat split; try (vm_compute; reflexivity).
  vm_compute. discriminate.
Qed.

(** ** The scenario engine *)

Lemma scenarios_ids (state : FinancialState) :
  map r_id (scenarios state) = map s_id DEFAULT_SCENARIOS.
Proof.
  unfold scenarios. rewrite map_map. reflexivity.
Qed.

Lemma Forall2_map_r {A B : Type} (P : A -> B -> Prop) (f : A -> B) (l : list A) :
  (forall x, In x l -> P x (f x)) -> Forall2 P l (map f l).
Proof.
  induction l as [|x l IH]; intros H; simpl; constructor.
  - apply H. now left.
  - apply IH. intros y Hy. apply H. now right.
Qed.

(** C3: the scenario results are one per default scenario, in declaration
    order; each uses the first override with the scenario's id when there
    is one and the default discount otherwise, the static commission, and
    the stated formulas for netRevenue, grossMargin, profit, isProfitable
    and roi. *)
Theorem scenarios_results (state : FinancialState) :
  List.length (scenarios state) = List.length DEFAULT_SCENARIOS /\
  map r_id (scenarios state) =
    ["direct"; "card"; "specifier"; "retail"; "distributor"; "agent"]%string /\
  Forall2 (fun S r =>
     let d := match find (fun o => String.eqb (c_id o) (s_id S))
                         (customScenarios state) with
              | Some o => c_discountPercent o
              | None => s_discountPercent S
              end in
     let c := commissionPercent S in
     r_id r = s_id S /\ r_name r = s_name S /\ r_description r = description S /\
     r_discountPercent r = d /\
     r_commissionPercent r = c /\
     netRevenue r = mul (publicPrice state) (sub (num 1 1) d) /\
     grossMargin r =
       sub (sub (sub (netRevenue r) (COGS state))
                (mul (netRevenue r) (designerRoyaltyPercent state)))
           (mul (netRevenue r) c) /\
     profit r = grossMargin r /\
     (isProfitable r = true <-> gt (profit r) zero = true) /\
     (gt (COGS state) zero = true ->
      roi r = mul (div (profit r) (COGS state)) (num 100 1)) /\
     (strict_eq (COGS state) zero = true -> roi r = zero))
    DEFAULT_SCENARIOS (scenarios state).
Proof.
  split; [apply length_map|].
  split; [rewrite scenarios_ids; reflexivity|].
  apply Forall2_map_r. intros S _. cbv zeta.
  do 8 (split; [reflexivity|]).
  split; [reflexivity|].
  split; simpl; intros H.
  - now rewrite H.
  - now rewrite (strict_eq_zero_not_gt _ H).
Qed.

(** C4: a scenario whose grossMargin is <= 0 has breakEvenUnits = Infinity,
    which is neither a finite number nor NaN; a scenario whose grossMargin
    is > 0 has breakEvenUnits = ceil(fixedMonthlyExpenses / grossMargin). *)
Theorem breakEvenUnits_sentinel (state : FinancialState) (r : ScenarioResult) :
  In r (scenarios state) ->
  (le (grossMargin r) zero = true ->
   breakEvenUnits r = PInf /\
   isFinite (breakEvenUnits r) = false /\
   isNaN (breakEvenUnits r) = false /\
   forall q, breakEvenUnits r <> Fin q) /\
  (gt (grossMargin r) zero = true ->
   breakEvenUnits r =
     Math_ceil (div (fixedMonthlyExpenses state) (grossMargin r))).
Proof.
  unfold scenarios. intros Hr. apply in_map_iff in Hr.
  destruct Hr as [S [<- _]]. simpl. unfold breakEvenUnitsOf. split.
  - intros H. rewrite (le_gt_false _ _ H).
    repeat split; try reflexivity. discriminate.
  - intros H. now rewrite H.
Qed.

Lemma breakEvenUnits_sentinel_witness :
  let direct := mkSalesScenario "direct" "Direct Sale" (num 0 1) (num 0 1)
                  "Direct to consumer (Website)" in
  let cleared := scenarioResult (handleClearAll INITIAL_STATE) direct in
  let initial := scenarioResult INITIAL_STATE direct in
  (In cleared (scenarios (handleClearAll INITIAL_STATE)) /\
   le (grossMargin cleared) zero = true /\
   breakEvenUnits cleared = PInf) /\
  (In initial (scenarios INITIAL_STATE) /\
   gt (grossMargin initial) zero = true /\
   breakEvenUnits initial =
     Math_ceil (div (fixedMonthlyExpenses INITIAL_STATE) (grossMargin initial))).
Proof.
  cbv zeta. split.
  - assert (Hin : In (scenarioResult (handleClearAll INITIAL_STATE)
                        (mkSalesScenario "direct" "Direct Sale" (num 0 1) (num 0 1)
                           "Direct to consumer (Website)"))
                     (scenarios (handleClearAll INITIAL_STATE)))
      by (left; reflexivity).
    assert (Hle : le (grossMargin (scenarioResult (handleClearAll INITIAL_STATE)
                        (mkSalesScenario "direct" "Direct Sale" (num 0 1) (num 0 1)
                           "Direct to consumer (Website)"))) zero = true)
      by reflexivity.
    split; [exact Hin|]. split; [exact Hle|].
    exact (proj1 (proj1 (breakEvenUnits_sentinel _ _ Hin) Hle)).
  - assert (Hin : In (scenarioResult INITIAL_STATE
                        (mkSalesScenario "direct" "Direct Sale" (num 0 1) (num 0 1)
                           "Direct to consumer (Website)"))
                     (scenarios INITIAL_STATE))
      by (left; reflexivity).
    assert (Hgt : gt (grossMargin (scenarioResult INITIAL_STATE
                        (mkSalesScenario "direct" "Direct Sale" (num 0 1) (num 0 1)
                           "Direct to consumer (Website)"))) zero = true)
      by reflexivity.
    split; [exact Hin|]. split; [exact Hgt|].
    exact (proj2 (breakEvenUnits_sentinel _ _ Hin) Hgt).
Defined.

(** ** The COGS aggregator *)

Lemma div_zero_gt (q : number) : gt q zero = true -> div zero q = zero.
Proof.
  destruct q as [y| | |]; try discriminate; try reflexivity.
  intros H. apply gt_zero_sign in H. unfold div, zero. rewrite H.
  reflexivity.
Qed.

Lemma max_zero_of_gt (a : number) : gt a zero = true -> Math_max zero a = a.
Proof.
  destruct a as [q| | |]; try discriminate; try reflexivity.
  intros H. simpl in *. apply Qltb_true_iff in H.
  unfold Qltb. replace (Qle_bool 0 q) with true; [reflexivity|].
  symmetry. apply Qle_bool_iff. now apply Qlt_le_weak.
Qed.

Lemma max_zero_of_le (a : number) :
  le a zero = true -> strict_eq (Math_max zero a) zero = true.
Proof.
  destruct a as [q| | |]; try discriminate; try reflexivity.
  simpl. unfold Qltb. rewrite !negb_involutive. intros H.
  destruct (Qle_bool 0 q) eqn:E; simpl; [|reflexivity].
  apply Qeq_bool_iff. apply Qle_bool_iff in H, E. now apply Qle_antisym.
Qed.

Lemma zero_batch_no_units (b w : number) :
  strict_eq b zero = true -> le zero w = true -> le (sub b w) zero = true.
Proof.
  destruct b as [q| | |]; try discriminate.
  destruct w as [x| | |]; try discriminate; try reflexivity.
  unfold strict_eq, le, gt, sub, zero, Qltb. rewrite !negb_involutive.
  intros Hq Hx. apply Qeq_bool_iff in Hq. apply Qle_bool_iff in Hx.
  apply Qle_bool_iff. rewrite Qred_correct. lra.
Qed.

(** C7, as stated, fails: a degenerate input does not make COGS finite.
    On the default state with an infinite amount on the "Tooling" item and
    a batch size of 0 there are zero effective units and a material cost per unit
    of 0, yet COGS is Infinity, through the amortised development cost. *)
Lemma COGS_infinite_on_zero_batch :
  let state :=
    {| devCosts :=
         [ mkCostItem "1" "Industrial Design" (num 5000 1);
           mkCostItem "2" "Prototyping" (num 1200 1);
           mkCostItem "3" "Tooling" PInf ];
       amortizationQty := num 1000 1;
       batchSize := zero;
       wasteCount := num 2 1;
       materials := materials INITIAL_STATE;
       publicPrice := num 85 1;
       fixedMonthlyExpenses := num 2500 1;
       designerRoyaltyPercent := num 5 100;
       customScenarios := customScenarios INITIAL_STATE |} in
  strict_eq (batchSize state) zero = true /\
  strict_eq (effectiveUnits state) zero = true /\
  materialCostPerUnit state = zero /\
  COGS state = PInf /\
  isFinite (COGS state) = false.
Proof.
  cbv zeta. repeat split; vm_compute; reflexivity.
Qed.

(** C7 (amended): the COGS aggregation is a total function; a zero
    amortisation quantity gives amortPerUnit = 0, effectiveUnits is
    max(0, batchSize - wasteCount), zero effective units (in particular a
    zero batch with a waste count >= 0) give materialCostPerUnit = 0, and
    COGS is 0 when both divisors are zero or both item lists are empty. *)
Theorem COGS_total (state : FinancialState) :
  (strict_eq (amortizationQty state) zero = true -> amortPerUnit state = zero) /\
  effectiveUnits state = Math_max zero (sub (batchSize state) (wasteCount state)) /\
  (gt (sub (batchSize state) (wasteCount state)) zero = true ->
   effectiveUnits state = sub (batchSize state) (wasteCount state)) /\
  (le (sub (batchSize state) (wasteCount state)) zero = true ->
   strict_eq (effectiveUnits state) zero = true) /\
  (strict_eq (effectiveUnits state) zero = true ->
   materialCostPerUnit state = zero) /\
  (strict_eq (batchSize state) zero = true ->
   le zero (wasteCount state) = true ->
   materialCostPerUnit state = zero) /\
  (strict_eq (amortizationQty state) zero = true ->
   strict_eq (effectiveUnits state) zero = true ->
   COGS state = zero /\ isFinite (COGS state) = true) /\
  (devCosts state = [] -> materials state = [] ->
   COGS state = zero /\ isFinite (COGS state) = true).
Proof.
  assert (Ha : strict_eq (amortizationQty state) zero = true ->
               amortPerUnit state = zero).
  { intros H. unfold amortPerUnit. now rewrite (strict_eq_zero_not_gt _ H). }
  assert (Hm : strict_eq (effectiveUnits state) zero = true ->
               materialCostPerUnit state = zero).
  { intros H. unfold materialCostPerUnit. now rewrite (strict_eq_zero_not_gt _ H). }
  split; [exact Ha|]. split; [reflexivity|].
  split; [apply max_zero_of_gt|]. split; [apply max_zero_of_le|].
  split; [exact Hm|]. split; [|split].
  - intros Hb Hw. apply Hm. unfold effectiveUnits.
    now apply max_zero_of_le, zero_batch_no_units.
  - intros H1 H2. unfold COGS. rewrite (Ha H1), (Hm H2). split; reflexivity.
  - intros Hd Hmat. unfold COGS, amortPerUnit, materialCostPerUnit,
      totalDevCost, totalBatchMaterialCost. rewrite Hd, Hmat. cbn [fold_left].
    destruct (gt (amortizationQty state) zero) eqn:E1;
      destruct (gt (effectiveUnits state) zero) eqn:E2;
      rewrite ?(div_zero_gt _ E1), ?(div_zero_gt _ E2); split; reflexivity.
Qed.

Lemma COGS_total_witness :
  let state := handleClearAll INITIAL_STATE in
  strict_eq (amortizationQty state) zero = true /\
  strict_eq (effectiveUnits state) zero = true /\
  COGS state = zero /\ isFinite (COGS state) = true.
Proof.
  cbv zeta.
  assert (H1 : strict_eq (amortizationQty (handleClearAll INITIAL_STATE)) zero = true)
    by reflexivity.
  assert (H2 : strict_eq (effectiveUnits (handleClearAll INITIAL_STATE)) zero = true)
    by reflexivity.
  destruct (COGS_total (handleClearAll INITIAL_STATE))
    as (_ & _ & _ & _ & _ & _ & Hz & _).
  split; [exact H1|]. split; [exact H2|]. exact (Hz H1 H2).
Defined.

(** ** Writing a scenario discount *)

Section DiscountWrite.

Variables (id : string) (newPercent : number).

Local Abbreviation write := (writeDiscount id newPercent).

Lemma write_id (s : ScenarioConfig) : c_id (write s) = c_id s.
Proof. unfold writeDiscount. now destruct (String.eqb (c_id s) id). Qed.

Lemma write_other (s : ScenarioConfig) : c_id s <> id -> write s = s.
Proof.
  unfold writeDiscount. intros H.
  destruct (String.eqb (c_id s) id) eqn:E; [|reflexivity].
  now apply String.eqb_eq in E.
Qed.

Lemma write_same (s : ScenarioConfig) :
  c_id s = id -> write s = mkScenarioConfig id newPercent.
Proof.
  unfold writeDiscount. intros H. rewrite H, String.eqb_refl. reflexivity.
Qed.

Lemma find_write (t : list ScenarioConfig) :
  find (fun o => String.eqb (c_id o) id) (map write t) =
  option_map write (find (fun o => String.eqb (c_id o) id) t).
Proof.
  induction t as [|s t IH]; simpl; [reflexivity|].
  rewrite write_id. now destruct (String.eqb (c_id s) id).
Qed.

Lemma map_write_absent (t : list ScenarioConfig) :
  (forall s, In s t -> c_id s <> id) -> map write t = t.
Proof.
  intros H. rewrite <- (map_id t) at 2.
  apply map_ext_in. intros s Hs. apply write_other, H, Hs.
Qed.

End DiscountWrite.

Lemma handleScenarioDiscountChange_table (id value : string)
    (state : FinancialState) :
  customScenarios (handleScenarioDiscountChange id value state) =
  map (writeDiscount id
         (if isNaN (parseFloat value) then zero
          else div (parseFloat value) (num 100 1)))
      (customScenarios state).
Proof. reflexivity. Qed.

(** C6: the scenario-discount write is total; the entry of the given id
    holds 0 afterwards when the text does not parse as a number and v / 100
    when it parses as v.  Writing "abc" to the retail channel of the default
    state stores 0, not the default 0.50, and the scenario engine then uses
    the 0. *)
Theorem scenario_discount_write (id value : string) (state : FinancialState) :
  (forall s,
     find (fun o => String.eqb (c_id o) id) (customScenarios state) = Some s ->
     exists s',
       find (fun o => String.eqb (c_id o) id)
            (customScenarios (handleScenarioDiscountChange id value state))
       = Some s' /\
       c_id s' = id /\
       (isNaN (parseFloat value) = true -> c_discountPercent s' = zero) /\
       (isNaN (parseFloat value) = false ->
        c_discountPercent s' = div (parseFloat value) (num 100 1))) /\
  Forall (fun s' =>
            c_id s' = id ->
            (isNaN (parseFloat value) = true -> c_discountPercent s' = zero) /\
            (isNaN (parseFloat value) = false ->
             c_discountPercent s' = div (parseFloat value) (num 100 1)))
         (customScenarios (handleScenarioDiscountChange id value state)) /\
  (parseFloat "abc" = NaN /\
   find (fun o => String.eqb (c_id o) "retail") (customScenarios INITIAL_STATE)
   = Some (mkScenarioConfig "retail" (num 50 100)) /\
   find (fun o => String.eqb (c_id o) "retail")
        (customScenarios (handleScenarioDiscountChange "retail" "abc" INITIAL_STATE))
   = Some (mkScenarioConfig "retail" zero) /\
   strict_eq zero (num 50 100) = false /\
   map r_discountPercent
       (scenarios (handleScenarioDiscountChange "retail" "abc" INITIAL_STATE))
   = [num 0 1; num 35 1000; num 15 100; zero; num 60 100; num 50 100]).
Proof.
  rewrite handleScenarioDiscountChange_table.
  split; [|split].
  - intros s Hs. rewrite find_write, Hs. simpl.
    apply find_some in Hs. destruct Hs as [_ Hs].
    apply String.eqb_eq in Hs. rewrite (write_same _ _ _ Hs).
    eexists. split; [reflexivity|]. simpl.
    split; [reflexivity|]. split; intros ->; reflexivity.
  - apply Forall_forall. intros s' Hin Hid.
    apply in_map_iff in Hin. destruct Hin as [s [<- _]].
    unfold writeDiscount in *.
    destruct (String.eqb (c_id s) id) eqn:E.
    + simpl. split; intros ->; reflexivity.
    + simpl in Hid. apply String.eqb_neq in E. contradiction.
  - repeat split; vm_compute; reflexivity.
Qed.

Lemma scenario_discount_write_witness :
  find (fun o => String.eqb (c_id o) "retail") (customScenarios INITIAL_STATE)
  = Some (mkScenarioConfig "retail" (num 50 100)) /\
  exists s',
    find (fun o => String.eqb (c_id o) "retail")
         (customScenarios (handleScenarioDiscountChange "retail" "12.5" INITIAL_STATE))
    = Some s' /\
    c_id s' = "retail"%string /\
    c_discountPercent s' = num 125 1000.
Proof.
  assert (H : find (fun o => String.eqb (c_id o) "retail")
                   (customScenarios INITIAL_STATE)
              = Some (mkScenarioConfig "retail" (num 50 100))) by reflexivity.
  split; [exact H|].
  destruct (proj1 (scenario_discount_write "retail" "12.5" INITIAL_STATE) _ H)
    as (s' & Hf & Hid & _ & Hv).
  exists s'. split; [exact Hf|]. split; [exact Hid|].
  rewrite (Hv eq_refl). vm_compute. reflexivity.
Defined.

(** C10: the scenario-discount write keeps the length and order of the
    override table and every entry of another id; when no entry has the
    given id the table is unchanged, and the channel keeps its default
    discount. *)
Theorem scenario_discount_write_frame (id value : string)
    (state : FinancialState) :
  let t := customScenarios state in
  let state' := handleScenarioDiscountChange id value state in
  let t' := customScenarios state' in
  List.length t' = List.length t /\
  map c_id t' = map c_id t /\
  (forall i s, nth_error t i = Some s -> c_id s <> id -> nth_error t' i = Some s) /\
  (forall i s', nth_error t' i = Some s' -> c_id s' <> id -> nth_error t i = Some s') /\
  ((forall s, In s t -> c_id s <> id) ->
   t' = t /\
   forall S, s_id S = id -> currentDiscount state' S = s_discountPercent S).
Proof.
  cbv zeta. rewrite handleScenarioDiscountChange_table.
  set (np := if isNaN (parseFloat value) then zero else div (parseFloat value) (num 100 1)).
  split; [apply length_map|].
  split; [rewrite map_map; apply map_ext; intros s; apply write_id|].
  split; [|split].
  - intros i s Hi Hs. rewrite nth_error_map, Hi. simpl.
    f_equal. now apply write_other.
  - intros i s' Hi Hs. rewrite nth_error_map in Hi.
    destruct (nth_error (customScenarios state) i) as [s|]; [|discriminate].
    simpl in Hi. injection Hi as Hi. f_equal.
    unfold writeDiscount in Hi.
    destruct (String.eqb (c_id s) id) eqn:E.
    + subst s'. simpl in Hs. apply String.eqb_eq in E. contradiction.
    + exact Hi.
  - intros Habs. split; [now apply map_write_absent|].
    intros S HS. unfold currentDiscount, findOverride.
    rewrite handleScenarioDiscountChange_table. fold np.
    rewrite HS, find_write.
    destruct (find (fun o => String.eqb (c_id o) id) (customScenarios state))
      as [s|] eqn:F; [|reflexivity].
    apply find_some in F. destruct F as [Hin Heq].
    apply String.eqb_eq in Heq. now apply Habs in Hin.
Qed.

Lemma scenario_discount_write_frame_witness :
  (forall s, In s (customScenarios INITIAL_STATE) -> c_id s <> "outlet"%string) /\
  customScenarios (handleScenarioDiscountChange "outlet" "20" INITIAL_STATE)
  = customScenarios INITIAL_STATE.
Proof.
  assert (H : forall s, In s (customScenarios INITIAL_STATE) ->
                        c_id s <> "outlet"%string).
  { intros s Hs. simpl in Hs.
    repeat (destruct Hs as [<-|Hs]; [discriminate|]). destruct Hs. }
  split; [exact H|].
  destruct (scenario_discount_write_frame "outlet" "20" INITIAL_STATE)
    as (_ & _ & _ & _ & Hz).
  exact (proj1 (Hz H)).
Defined.

(** ** Batch-size changes compose *)

Lemma recalculateItem_twice (b1 b2 : number) (m : MaterialItem) :
  recalculateItem b2 (recalculateItem b1 m) = recalculateItem b2 m.
Proof.
  destruct (isCalculated m) eqn:E.
  - rewrite (recalculateItem_calculated b1 m E).
    now apply recalculateItem_withCost.
  - now rewrite (recalculateItem_not_calculated b1 m E).
Qed.

(** X1: Of two batch-size changes in a row only the last one counts: the costs
    after the second change do not depend on the first size. *)
Theorem updateBatchSize_last_wins (b1 b2 : number) (state : FinancialState) :
  updateBatchSize b2 (updateBatchSize b1 state) = updateBatchSize b2 state.
Proof.
  unfold updateBatchSize. simpl. f_equal.
  unfold recalculateMaterials. rewrite map_map.
  apply map_ext. intros m. apply recalculateItem_twice.
Qed.

(** ** Removing items *)

Lemma recalculateItem_id (b : number) (m : MaterialItem) :
  m_id (recalculateItem b m) = m_id m.
Proof. unfold recalculateItem. now destruct (_ || _)%bool. Qed.

Lemma filter_map_commute {A : Type} (f : A -> A) (q : A -> bool) (l : list A) :
  (forall x, q (f x) = q x) -> filter q (map f l) = map f (filter q l).
Proof.
  intros H. induction l as [|x l IH]; simpl; [reflexivity|].
  rewrite H. destruct (q x); simpl; now rewrite IH.
Qed.

(** X2: Removing a material and changing the batch size commute. *)
Theorem removeMaterial_updateBatchSize (id : string) (b : number)
    (state : FinancialState) :
  removeMaterial id (updateBatchSize b state)
  = updateBatchSize b (removeMaterial id state).
Proof.
  unfold removeMaterial, updateBatchSize, updateMaterials. simpl. f_equal.
  unfold recalculateMaterials. apply filter_map_commute.
  intros m. now rewrite recalculateItem_id.
Qed.

(** X3: removeMaterial deletes every item that carries the id and nothing else:
    the remaining items are exactly the items of other ids, in their order,
    and removing an id no item carries leaves the list as it was. *)
Theorem removeMaterial_spec (id : string) (state : FinancialState) :
  let ms := materials state in
  let ms' := materials (removeMaterial id state) in
  (forall m, In m ms' <-> In m ms /\ m_id m <> id) /\
  (exists keep, ms' = filter keep ms /\ forall m, keep m = true <-> m_id m <> id) /\
  ((forall m, In m ms -> m_id m <> id) -> ms' = ms) /\
  materials (removeMaterial id (removeMaterial id state)) = ms'.
Proof.
  cbv zeta. simpl.
  assert (K : forall m, negb (String.eqb (m_id m) id) = true <-> m_id m <> id).
  { intros m. rewrite negb_true_iff. apply String.eqb_neq. }
  split; [|split; [|split]].
  - intros m. rewrite filter_In, K. reflexivity.
  - eexists. split; [reflexivity|exact K].
  - intros H. apply forallb_filter_id. apply forallb_forall.
    intros m Hm. apply K, H, Hm.
  - induction (materials state) as [|m l IH]; simpl; [reflexivity|].
    destruct (negb (String.eqb (m_id m) id)) eqn:E; simpl; rewrite ?E, IH;
      reflexivity.
Qed.

(** ** Adding items *)

Lemma reduced_add (a b : number) : reduced (add a b).
Proof.
  destruct a, b; try exact I. unfold add, reduced. apply Qred_complete, Qred_correct.
Qed.

Lemma add_zero_reduced (a : number) : reduced a -> add a zero = a.
Proof.
  destruct a as [q| | |]; try reflexivity.
  unfold reduced, add, zero. intros H. f_equal. rewrite <- H at 2.
  apply Qred_complete, Qplus_0_r.
Qed.

Lemma reduced_fold_add {A : Type} (f : A -> number) (l : list A) (acc : number) :
  reduced acc -> reduced (fold_left (fun acc x => add acc (f x)) l acc).
Proof.
  revert acc. induction l as [|x l IH]; intros acc H; simpl; [exact H|].
  apply IH, reduced_add.
Qed.

Lemma fold_add_snoc_zero {A : Type} (f : A -> number) (l : list A) (x : A) :
  f x = zero ->
  fold_left (fun acc y => add acc (f y)) (l ++ [x]) zero
  = fold_left (fun acc y => add acc (f y)) l zero.
Proof.
  intros Hx. rewrite fold_left_app. simpl. rewrite Hx.
  apply add_zero_reduced, reduced_fold_add. reflexivity.
Qed.

Lemma scenarios_ext (s1 s2 : FinancialState) :
  COGS s1 = COGS s2 ->
  publicPrice s1 = publicPrice s2 ->
  designerRoyaltyPercent s1 = designerRoyaltyPercent s2 ->
  fixedMonthlyExpenses s1 = fixedMonthlyExpenses s2 ->
  customScenarios s1 = customScenarios s2 ->
  scenarios s1 = scenarios s2.
Proof.
  intros Hc Hp Hr Hf Ht. unfold scenarios. apply map_ext. intros S.
  unfold scenarioResult, breakEvenUnitsOf, grossMarginOf, royaltyAmount,
    commissionAmount, netRevenueOf, currentDiscount, findOverride.
  now rewrite Hc, Hp, Hr, Hf, Ht.
Qed.

(** X4: A freshly added material has cost 0 and is in manual mode: adding it
    changes neither the batch material total, nor COGS, nor any scenario
    result, and a later batch-size change leaves the new row as it is. *)
Theorem addMaterial_neutral (now : N) (state : FinancialState) :
  let state' := addMaterial now state in
  List.length (materials state') = S (List.length (materials state)) /\
  totalBatchMaterialCost state' = totalBatchMaterialCost state /\
  COGS state' = COGS state /\
  scenarios state' = scenarios state /\
  forall b, exists m,
    materials (updateBatchSize b state')
    = recalculateMaterials (materials state) b ++ [m] /\
    cost m = zero /\ isCalculated m = false.
Proof.
  cbv zeta.
  assert (Ht : totalBatchMaterialCost (addMaterial now state)
               = totalBatchMaterialCost state).
  { unfold totalBatchMaterialCost, addMaterial. simpl.
    now apply fold_add_snoc_zero. }
  assert (Hc : COGS (addMaterial now state) = COGS state).
  { unfold COGS, materialCostPerUnit. now rewrite Ht. }
  split; [|split; [exact Ht|split; [exact Hc|split]]].
  - unfold addMaterial. simpl. rewrite length_app. simpl. lia.
  - now apply scenarios_ext.
  - intros b. eexists. split; [|split].
    + unfold addMaterial, updateBatchSize, recalculateMaterials. simpl.
      rewrite map_app. simpl. reflexivity.
    + reflexivity.
    + reflexivity.
Qed.

(** X5: A freshly added development item has amount 0: adding it changes
    neither the development total, nor the amortisation per unit, nor COGS,
    nor any scenario result. *)
Theorem addDevCost_neutral (now : N) (state : FinancialState) :
  let state' := addDevCost now state in
  List.length (devCosts state') = S (List.length (devCosts state)) /\
  totalDevCost state' = totalDevCost state /\
  amortPerUnit state' = amortPerUnit state /\
  COGS state' = COGS state /\
  scenarios state' = scenarios state.
Proof.
  cbv zeta.
  assert (Ht : totalDevCost (addDevCost now state) = totalDevCost state).
  { unfold totalDevCost, addDevCost. simpl. now apply fold_add_snoc_zero. }
  assert (Ha : amortPerUnit (addDevCost now state) = amortPerUnit state).
  { unfold amortPerUnit. now rewrite Ht. }
  assert (Hc : COGS (addDevCost now state) = COGS state).
  { unfold COGS. now rewrite Ha. }
  split; [|split; [exact Ht|split; [exact Ha|split; [exact Hc|]]]].
  - unfold addDevCost. simpl. rewrite length_app. simpl. lia.
  - now apply scenarios_ext.
Qed.

(** ** Discount writes compose *)

Lemma writeDiscount_twice (id : string) (n1 n2 : number) (s : ScenarioConfig) :
  writeDiscount id n2 (writeDiscount id n1 s) = writeDiscount id n2 s.
Proof.
  unfold writeDiscount.
  destruct (String.eqb (c_id s) id) eqn:E; simpl; now rewrite E.
Qed.

Lemma writeDiscount_commute (id1 id2 : string) (n1 n2 : number)
    (s : ScenarioConfig) :
  id1 <> id2 ->
  writeDiscount id1 n1 (writeDiscount id2 n2 s)
  = writeDiscount id2 n2 (writeDiscount id1 n1 s).
Proof.
  intros H. unfold writeDiscount.
  destruct (String.eqb (c_id s) id1) eqn:E1;
    destruct (String.eqb (c_id s) id2) eqn:E2; simpl; rewrite ?E1, ?E2;
    try reflexivity.
  apply String.eqb_eq in E1, E2. congruence.
Qed.

(** X6: Of two discount writes to the same channel only the last one counts. *)
Theorem discount_write_last_wins (id v1 v2 : string) (state : FinancialState) :
  handleScenarioDiscountChange id v2 (handleScenarioDiscountChange id v1 state)
  = handleScenarioDiscountChange id v2 state.
Proof.
  unfold handleScenarioDiscountChange, updateCustomScenarios. simpl. f_equal.
  rewrite map_map. apply map_ext. intros s. apply writeDiscount_twice.
Qed.

(** X7: Discount writes to two different channels commute. *)
Theorem discount_writes_commute (id1 id2 v1 v2 : string) (state : FinancialState) :
  id1 <> id2 ->
  handleScenarioDiscountChange id1 v1 (handleScenarioDiscountChange id2 v2 state)
  = handleScenarioDiscountChange id2 v2 (handleScenarioDiscountChange id1 v1 state).
Proof.
  intros H. unfold handleScenarioDiscountChange, updateCustomScenarios. simpl.
  f_equal. rewrite !map_map. apply map_ext. intros s.
  now apply writeDiscount_commute.
Qed.

Lemma discount_writes_commute_witness :
  "retail"%string <> "agent"%string /\
  handleScenarioDiscountChange "retail" "40"
    (handleScenarioDiscountChange "agent" "45" INITIAL_STATE)
  = handleScenarioDiscountChange "agent" "45"
      (handleScenarioDiscountChange "retail" "40" INITIAL_STATE).
Proof.
  assert (H : "retail"%string <> "agent"%string) by discriminate.
  split; [exact H|].
  exact (discount_writes_commute "retail" "agent" "40" "45" INITIAL_STATE H).
Defined.

Lemma find_write_other (id other : string) (np : number)
    (t : list ScenarioConfig) :
  other <> id ->
  find (fun o => String.eqb (c_id o) other) (map (writeDiscount id np) t)
  = find (fun o => String.eqb (c_id o) other) t.
Proof.
  intros H. induction t as [|s t IH]; simpl; [reflexivity|].
  rewrite write_id.
  destruct (String.eqb (c_id s) other) eqn:E; [|exact IH].
  apply String.eqb_eq in E. f_equal. apply write_other. congruence.
Qed.

(** X8: A discount write to one channel changes no result of another channel. *)
Theorem discount_write_other_channels (id value : string)
    (state : FinancialState) (S : SalesScenario) :
  s_id S <> id ->
  scenarioResult (handleScenarioDiscountChange id value state) S
  = scenarioResult state S.
Proof.
  intros H.
  assert (Hd : currentDiscount (handleScenarioDiscountChange id value state) S
               = currentDiscount state S).
  { unfold currentDiscount, findOverride.
    rewrite handleScenarioDiscountChange_table.
    now rewrite find_write_other. }
  unfold scenarioResult, breakEvenUnitsOf, grossMarginOf, royaltyAmount,
    commissionAmount, netRevenueOf. rewrite Hd. reflexivity.
Qed.

Lemma discount_write_other_channels_witness :
  let direct := mkSalesScenario "direct" "Direct Sale" (num 0 1) (num 0 1)
                  "Direct to consumer (Website)" in
  s_id direct <> "retail"%string /\
  scenarioResult (handleScenarioDiscountChange "retail" "40" INITIAL_STATE) direct
  = scenarioResult INITIAL_STATE direct.
Proof.
  cbv zeta.
  assert (H : s_id (mkSalesScenario "direct" "Direct Sale" (num 0 1) (num 0 1)
                      "Direct to consumer (Website)") <> "retail"%string)
    by discriminate.
  split; [exact H|].
  exact (discount_write_other_channels "retail" "40" INITIAL_STATE _ H).
Defined.

(** ** The override table and the engine *)

Lemma tableCoversDefaults_discounts (state : FinancialState) :
  tableCoversDefaults state ->
  map r_discountPercent (scenarios state)
  = map c_discountPercent (customScenarios state).
Proof.
  unfold tableCoversDefaults, scenarios, scenarioResult, currentDiscount,
    findOverride.
  destruct (customScenarios state) as [|a [|b [|c [|d [|e [|f [|g t]]]]]]];
    try discriminate.
  intros H. injection H as Ha Hb Hc Hd He Hf.
  cbn [map DEFAULT_SCENARIOS find s_id r_discountPercent].
  rewrite Ha, Hb, Hc, Hd, He, Hf. reflexivity.
Qed.

(** X9: Whenever the override table lists the six default ids in order (as in
    the initial and the cleared state, and a discount write keeps it so)
    the engine takes every discount from the table and never falls back to
    a static default; after a write the channel written reads the new
    value and the others read what they read before. *)
Theorem override_table_drives_engine (state : FinancialState) :
  tableCoversDefaults state ->
  map r_discountPercent (scenarios state)
  = map c_discountPercent (customScenarios state) /\
  forall id value,
    let state' := handleScenarioDiscountChange id value state in
    tableCoversDefaults state' /\
    map r_discountPercent (scenarios state')
    = map (fun o => if String.eqb (c_id o) id
                    then (if isNaN (parseFloat value) then zero
                          else div (parseFloat value) (num 100 1))
                    else c_discountPercent o)
          (customScenarios state).
Proof.
  intros H. split; [now apply tableCoversDefaults_discounts|].
  intros id value. cbv zeta.
  assert (H' : tableCoversDefaults (handleScenarioDiscountChange id value state)).
  { unfold tableCoversDefaults in *.
    rewrite handleScenarioDiscountChange_table, map_map, <- H.
    apply map_ext. intros s. apply write_id. }
  split; [exact H'|].
  rewrite (tableCoversDefaults_discounts _ H').
  rewrite handleScenarioDiscountChange_table, map_map.
  apply map_ext. intros s. unfold writeDiscount.
  now destruct (String.eqb (c_id s) id).
Qed.

Lemma override_table_drives_engine_witness :
  tableCoversDefaults INITIAL_STATE /\
  tableCoversDefaults (handleClearAll INITIAL_STATE) /\
  map r_discountPercent (scenarios INITIAL_STATE)
  = map c_discountPercent (customScenarios INITIAL_STATE) /\
  map r_discountPercent
      (scenarios (handleScenarioDiscountChange "card" "4" (handleClearAll INITIAL_STATE)))
  = [zero; num 4 100; zero; zero; zero; zero].
Proof.
  assert (H1 : tableCoversDefaults INITIAL_STATE) by reflexivity.
  assert (H2 : tableCoversDefaults (handleClearAll INITIAL_STATE)) by reflexivity.
  split; [exact H1|]. split; [exact H2|].
  split; [exact (proj1 (override_table_drives_engine _ H1))|].
  rewrite (proj2 (proj2 (override_table_drives_engine _ H2)
             "card"%string "4"%string)).
  vm_compute. reflexivity.
Defined.

(** ** The card and the kernel agree *)

Lemma max_zero_not_gt (a : number) :
  gt a zero = false -> gt (Math_max zero a) zero = false.
Proof.
  destruct a as [q| | |]; try discriminate; try reflexivity.
  intros H. unfold Math_max. destruct (gt zero (Fin q)); [reflexivity|exact H].
Qed.

(** X10: The efficiency card computes its unit costs from an unclamped
    [batchSize - wasteCount], the kernel from the clamped one; on the props
    App passes, both give the same material cost per unit and the same total,
    so the card's NEGATIVE MARGIN state is the kernel's COGS > publicPrice. *)
Theorem card_agrees_with_kernel (state : FinancialState) :
  currentUnitMatCost (cardProps state) = materialCostPerUnit state /\
  currentTotalUnitCost (cardProps state) = COGS state /\
  isUnprofitable (cardProps state) = gt (COGS state) (publicPrice state).
Proof.
  assert (H : currentUnitMatCost (cardProps state) = materialCostPerUnit state).
  { unfold currentUnitMatCost, materialCostPerUnit, cardEffectiveUnits,
      effectiveUnits, cardProps.
    cbn [p_batchSize p_wasteCount p_totalBatchMaterialCost].
    destruct (gt (sub (batchSize state) (wasteCount state)) zero) eqn:E.
    - now rewrite (max_zero_of_gt _ E), E.
    - now rewrite (max_zero_not_gt _ E). }
  split; [exact H|].
  unfold isUnprofitable, currentTotalUnitCost, COGS. rewrite H.
  split; reflexivity.
Qed.

(** ** The headline ROI *)

Lemma or_else_zero_not_NaN (a : number) : isNaN (or_else a zero) = false.
Proof.
  unfold or_else. destruct a as [q| | |]; simpl; try reflexivity.
  now destruct (Qsign q).
Qed.

(** X11: The ROI shown in the header is a number in every state, never NaN,
    and it is 0 whenever COGS is not positive. *)
Theorem directRoi_defined (state : FinancialState) :
  isNaN (directRoi state) = false /\
  (gt (COGS state) zero = false -> directRoi state = zero).
Proof.
  unfold directRoi, scenarios. simpl. split.
  - apply or_else_zero_not_NaN.
  - intros H. now rewrite H.
Qed.

Lemma Qsign_pos (q : Q) : (0 < q)%Q -> Qsign q = Gt.
Proof.
  intros H. apply gt_zero_sign. now apply Qltb_true_iff.
Qed.

(** ** Selling below cost *)

Lemma margin_not_positive (p k rr c d : Q) :
  (0 <= p)%Q -> (p <= k)%Q -> (0 <= rr)%Q -> (0 <= c)%Q ->
  (0 <= d)%Q -> (d <= 1)%Q ->
  gt (sub (sub (sub (mul (Fin p) (sub (num 1 1) (Fin d))) (Fin k))
               (mul (mul (Fin p) (sub (num 1 1) (Fin d))) (Fin rr)))
          (mul (mul (Fin p) (sub (num 1 1) (Fin d))) (Fin c)))
     zero = false.
Proof.
  intros Hp Hk Hr Hc Hd0 Hd1. unfold num, sub, mul, gt, zero, Qltb.
  apply negb_false_iff, Qle_bool_iff.
  repeat rewrite Qred_correct.
  assert (H1 : (0 <= p * (1 - d))%Q) by (apply Qmult_le_0_compat; lra).
  assert (H2 : (p * (1 - d) <= p)%Q) by nra.
  assert (H3 : (0 <= p * (1 - d) * rr)%Q) by (apply Qmult_le_0_compat; lra).
  assert (H4 : (0 <= p * (1 - d) * c)%Q) by (apply Qmult_le_0_compat; lra).
  change (1 # 1)%Q with 1%Q. lra.
Qed.

Lemma default_commission_nonneg (S : SalesScenario) :
  In S DEFAULT_SCENARIOS -> exists c, commissionPercent S = Fin c /\ (0 <= c)%Q.
Proof.
  intros H. simpl in H.
  repeat (destruct H as [<-|H];
          [eexists; split; [reflexivity|vm_compute; discriminate]|]).
  destruct H.
Qed.

(** X14: When COGS is at least the public price, no channel with a discount
    between 0 and 1 is profitable, whatever the (non-negative) royalty:
    every such scenario shows isProfitable = false and an unreachable
    break-even. *)
Theorem no_profit_below_cost (state : FinancialState) (r : ScenarioResult)
    (p k rr d : Q) :
  In r (scenarios state) ->
  publicPrice state = Fin p ->
  COGS state = Fin k ->
  designerRoyaltyPercent state = Fin rr ->
  r_discountPercent r = Fin d ->
  (0 <= p)%Q -> (p <= k)%Q -> (0 <= rr)%Q -> (0 <= d)%Q -> (d <= 1)%Q ->
  isProfitable r = false /\ breakEvenUnits r = PInf.
Proof.
  unfold scenarios. intros Hr Hp Hk Hrr Hd P0 Pk R0 D0 D1.
  apply in_map_iff in Hr. destruct Hr as [S [<- HS]].
  destruct (default_commission_nonneg S HS) as [c [Hc C0]].
  simpl in Hd.
  assert (G : gt (grossMarginOf state S) zero = false).
  { unfold grossMarginOf, royaltyAmount, commissionAmount, netRevenueOf.
    rewrite Hp, Hk, Hrr, Hd, Hc. now apply margin_not_positive. }
  simpl. unfold breakEvenUnitsOf. rewrite G. split; reflexivity.
Qed.

Lemma no_profit_below_cost_witness :
  let state := updateWasteCount (num 49 1) INITIAL_STATE in
  let retail := mkSalesScenario "retail" "Retail Store" (num 50 100) (num 0 1)
                  "Standard wholesale" in
  let r := scenarioResult state retail in
  In r (scenarios state) /\ COGS state = Fin (4597 # 10) /\
  isProfitable r = false /\ breakEvenUnits r = PInf.
Proof.
  cbv zeta.
  assert (Hin : In (scenarioResult (updateWasteCount (num 49 1) INITIAL_STATE)
                      (mkSalesScenario "retail" "Retail Store" (num 50 100)
                         (num 0 1) "Standard wholesale"))
                   (scenarios (updateWasteCount (num 49 1) INITIAL_STATE)))
    by (do 3 right; left; reflexivity).
  assert (Hk : COGS (updateWasteCount (num 49 1) INITIAL_STATE) = Fin (4597 # 10))
    by (vm_compute; reflexivity).
  split; [exact Hin|]. split; [exact Hk|].
  apply (no_profit_below_cost _ _ (85 # 1) (4597 # 10) (1 # 20) (1 # 2) Hin);
    try (vm_compute; reflexivity); try (vm_compute; discriminate).
Defined.

(** ** The cost-versus-waste chart *)

Lemma Qltb_inject_ceiling (i : Z) (q : Q) :
  Qltb (inject_Z i) q = true <-> i < Qceiling q.
Proof.
  rewrite Qltb_true_iff. split; intros H.
  - rewrite Zlt_Qlt. eapply Qlt_le_trans; [exact H|apply Qle_ceiling].
  - eapply Qle_lt_trans; [|apply Qceiling_lt].
    rewrite <- Zle_Qle. lia.
Qed.

Lemma sub_inject_pos (i : Z) (q : Q) :
  i < Qceiling q -> gt (sub (Fin q) (Fin (inject_Z i))) zero = true.
Proof.
  intros H. apply Qltb_inject_ceiling, Qltb_true_iff in H.
  unfold sub, gt, zero. apply Qltb_true_iff.
  rewrite Qred_correct. lra.
Qed.

Lemma Qceiling_bound (q : Q) (n : Z) :
  (q <= inject_Z n)%Q -> Qceiling q <= n.
Proof.
  intros H. apply Qceiling_resp_le in H. now rewrite Qceiling_Z in H.
Qed.

Lemma nextCounter_small (i : Z) : i < maxArrayLength -> nextCounter i = i + 1.
Proof.
  unfold nextCounter, maxArrayLength. intros H.
  replace (i <? 2 ^ 53) with true; [reflexivity|].
  symmetry. apply Z.ltb_lt. lia.
Qed.

Section Chart.

Variables (toFixed2 : number -> number) (p : CardProps) (q : Q).
Hypothesis Hbatch : p_batchSize p = Fin q.

Section Within.

Hypothesis Hbound : (q <= inject_Z maxArrayLength)%Q.

Lemma chartLoop_runs (cnt : nat) : forall (k fuel : nat) (data : list ChartPoint),
  List.length data = k ->
  (k + cnt = Z.to_nat (Qceiling q))%nat ->
  (cnt < fuel)%nat ->
  chartLoop toFixed2 p fuel (Z.of_nat k) data
  = Some (data ++ map (fun j => chartPoint toFixed2 p (Z.of_nat j)) (seq k cnt)).
Proof.
  pose proof (Qceiling_bound q _ Hbound) as Hc.
  induction cnt as [|cnt IH]; intros k fuel data Hlen Hk Hfuel;
    (destruct fuel as [|fuel]; [lia|]); cbn [chartLoop]; unfold lt;
    rewrite Hbatch; cbn [gt].
  - replace (Qltb (inject_Z (Z.of_nat k)) q) with false.
    + now rewrite app_nil_r.
    + symmetry. apply not_true_iff_false. rewrite Qltb_inject_ceiling. lia.
  - replace (Qltb (inject_Z (Z.of_nat k)) q) with true
      by (symmetry; apply Qltb_inject_ceiling; lia).
    rewrite Hlen.
    replace (Z.of_nat k <? maxArrayLength) with true
      by (symmetry; apply Z.ltb_lt; lia).
    rewrite nextCounter_small by lia.
    replace (Z.of_nat k + 1) with (Z.of_nat (S k)) by lia.
    rewrite (IH (S k) fuel); [|rewrite length_app; simpl; lia|lia|lia].
    now rewrite <- app_assoc.
Qed.

Lemma chartData_runs (fuel : nat) :
  (Z.to_nat (Qceiling q) < fuel)%nat ->
  chartData toFixed2 p fuel
  = Some (map (fun j => chartPoint toFixed2 p (Z.of_nat j))
              (seq 0 (Z.to_nat (Qceiling q)))).
Proof.
  intros H. unfold chartData.
  exact (chartLoop_runs (Z.to_nat (Qceiling q)) 0 fuel [] eq_refl eq_refl H).
Qed.

End Within.

Lemma chartLoop_overflows (fuel : nat) : forall (i : Z) (data : list ChartPoint),
  (inject_Z maxArrayLength < q)%Q ->
  i <= maxArrayLength -> i <= Z.of_nat (List.length data) ->
  chartLoop toFixed2 p fuel i data = None.
Proof.
  induction fuel as [|fuel IH]; intros i data Hq Hi Hlen; [reflexivity|].
  cbn [chartLoop]. unfold lt. rewrite Hbatch. cbn [gt].
  replace (Qltb (inject_Z i) q) with true.
  - destruct (Z.of_nat (List.length data) <? maxArrayLength) eqn:E; [|reflexivity].
    apply Z.ltb_lt in E. apply IH; [exact Hq| |].
    + unfold nextCounter. destruct (i <? 2 ^ 53); lia.
    + rewrite length_app. simpl. unfold nextCounter.
      destruct (i <? 2 ^ 53); lia.
  - symmetry. apply Qltb_true_iff.
    eapply Qle_lt_trans; [|exact Hq]. now rewrite <- Zle_Qle.
Qed.

End Chart.

(** X15: For a finite batch size within the length an array can have, the
    chart loop ends: it yields one point per whole number of wasted units
    below the batch size, in increasing order of waste starting at 0, each
    carrying the public price.  For a finite batch size beyond that length
    no list is returned. *)
Theorem chartData_points (toFixed2 : number -> number) (p : CardProps) (q : Q) :
  p_batchSize p = Fin q ->
  ((q <= inject_Z maxArrayLength)%Q ->
   forall fuel, (Z.to_nat (Qceiling q) < fuel)%nat ->
   exists pts,
     chartData toFixed2 p fuel = Some pts /\
     List.length pts = Z.to_nat (Qceiling q) /\
     map waste pts = map (fun j => Fin (inject_Z (Z.of_nat j)))
                         (seq 0 (Z.to_nat (Qceiling q))) /\
     Forall (fun pt => price pt = p_publicPrice p) pts) /\
  ((inject_Z maxArrayLength < q)%Q ->
   forall fuel, chartData toFixed2 p fuel = None).
Proof.
  intros Hb. split.
  - intros Hq fuel Hf. eexists.
    split; [exact (chartData_runs toFixed2 p q Hb Hq fuel Hf)|].
    split; [now rewrite length_map, length_seq|].
    split; [now rewrite map_map|].
    apply Forall_forall. intros pt Hpt. apply in_map_iff in Hpt.
    now destruct Hpt as [j [<- _]].
  - intros Hq fuel. unfold chartData.
    apply (chartLoop_overflows toFixed2 p q Hb); [exact Hq| |simpl; lia].
    unfold maxArrayLength. lia.
Qed.

Lemma chartData_points_witness :
  let p := cardProps INITIAL_STATE in
  p_batchSize p = Fin (50 # 1) /\
  (50 # 1 <= inject_Z maxArrayLength)%Q /\
  (Z.to_nat (Qceiling (50 # 1)) < 60)%nat /\
  forall toFixed2, exists pts,
    chartData toFixed2 p 60 = Some pts /\ List.length pts = 50%nat.
Proof.
  cbv zeta.
  assert (Hb : p_batchSize (cardProps INITIAL_STATE) = Fin (50 # 1)) by reflexivity.
  assert (Hq : (50 # 1 <= inject_Z maxArrayLength)%Q) by (vm_compute; discriminate).
  assert (Hf : (Z.to_nat (Qceiling (50 # 1)) < 60)%nat) by (vm_compute; lia).
  split; [exact Hb|]. split; [exact Hq|]. split; [exact Hf|].
  intros toFixed2.
  destruct (proj1 (chartData_points toFixed2 _ _ Hb) Hq 60%nat Hf)
    as (pts & H1 & H2 & _).
  exists pts. split; [exact H1|]. rewrite H2. reflexivity.
Defined.

(** X16: No point of the chart divides by zero: every point is computed
    from a positive number of effective units, batchSize - waste > 0, and
    its cost is the rounding of
    totalBatchMaterialCost / (batchSize - waste) + amortizationPerUnit. *)
Theorem chartData_no_division_by_zero (toFixed2 : number -> number) (p : CardProps)
    (q : Q) (fuel : nat) :
  p_batchSize p = Fin q ->
  (q <= inject_Z maxArrayLength)%Q ->
  (Z.to_nat (Qceiling q) < fuel)%nat ->
  exists pts,
    chartData toFixed2 p fuel = Some pts /\
    Forall (fun pt =>
              gt (sub (p_batchSize p) (waste pt)) zero = true /\
              pt_cost pt =
                toFixed2 (add (div (p_totalBatchMaterialCost p)
                                   (sub (p_batchSize p) (waste pt)))
                              (amortizationPerUnit p)))
           pts.
Proof.
  intros Hb Hq Hf. eexists.
  split; [exact (chartData_runs toFixed2 p q Hb Hq fuel Hf)|].
  apply Forall_forall. intros pt Hpt. apply in_map_iff in Hpt.
  destruct Hpt as [j [<- Hj]]. apply in_seq in Hj.
  split; [|reflexivity].
  cbn [chartPoint waste]. rewrite Hb. apply sub_inject_pos. lia.
Qed.

Lemma chartData_no_division_by_zero_witness :
  let p := cardProps (updateBatchSize (num 3 1) INITIAL_STATE) in
  p_batchSize p = Fin (3 # 1) /\
  (3 # 1 <= inject_Z maxArrayLength)%Q /\
  (Z.to_nat (Qceiling (3 # 1)) < 5)%nat /\
  forall toFixed2, exists pts,
    chartData toFixed2 p 5 = Some pts /\
    Forall (fun pt => gt (sub (p_batchSize p) (waste pt)) zero = true) pts.
Proof.
  cbv zeta.
  assert (Hb : p_batchSize (cardProps (updateBatchSize (num 3 1) INITIAL_STATE))
               = Fin (3 # 1)) by reflexivity.
  assert (Hq : (3 # 1 <= inject_Z maxArrayLength)%Q) by (vm_compute; discriminate).
  assert (Hf : (Z.to_nat (Qceiling (3 # 1)) < 5)%nat) by (vm_compute; lia).
  split; [exact Hb|]. split; [exact Hq|]. split; [exact Hf|].
  intros toFixed2.
  destruct (chartData_no_division_by_zero toFixed2 _ _ _ Hb Hq Hf) as (pts & H1 & H2).
  exists pts. split; [exact H1|].
  eapply Forall_impl; [|exact H2]. intros pt H. exact (proj1 H).
Defined.

(** X17: The point of the chart at the current waste is computed by the
    expression of the card's own total unit cost: its cost is the rounding
    of currentTotalUnitCost. *)
Theorem chartData_current_point (toFixed2 : number -> number) (p : CardProps)
    (q : Q) (w : Z) (fuel : nat) :
  p_batchSize p = Fin q ->
  (q <= inject_Z maxArrayLength)%Q ->
  p_wasteCount p = Fin (inject_Z w) ->
  0 <= w < Qceiling q ->
  (Z.to_nat (Qceiling q) < fuel)%nat ->
  exists pts,
    chartData toFixed2 p fuel = Some pts /\
    nth_error pts (Z.to_nat w)
    = Some {| waste := p_wasteCount p;
              pt_cost := toFixed2 (currentTotalUnitCost p);
              price := p_publicPrice p |}.
Proof.
  intros Hb Hq Hw Hr Hf. eexists.
  split; [exact (chartData_runs toFixed2 p q Hb Hq fuel Hf)|].
  rewrite nth_error_map, nth_error_seq.
  replace (Z.to_nat w <? Z.to_nat (Qceiling q))%nat with true
    by (symmetry; apply Nat.ltb_lt; lia).
  simpl. rewrite Z2Nat.id by lia. f_equal.
  unfold chartPoint, currentTotalUnitCost, currentUnitMatCost, cardEffectiveUnits.
  rewrite Hw, Hb. rewrite (sub_inject_pos w q) by lia. reflexivity.
Qed.

Lemma chartData_current_point_witness :
  let p := cardProps INITIAL_STATE in
  p_batchSize p = Fin (50 # 1) /\
  (50 # 1 <= inject_Z maxArrayLength)%Q /\
  p_wasteCount p = Fin (inject_Z 2) /\
  0 <= 2 < Qceiling (50 # 1) /\
  forall toFixed2, exists pts,
    chartData toFixed2 p 51 = Some pts /\
    nth_error pts 2
    = Some {| waste := p_wasteCount p;
              pt_cost := toFixed2 (currentTotalUnitCost p);
              price := p_publicPrice p |}.
Proof.
  cbv zeta.
  assert (Hb : p_batchSize (cardProps INITIAL_STATE) = Fin (50 # 1)) by reflexivity.
  assert (Hq : (50 # 1 <= inject_Z maxArrayLength)%Q) by (vm_compute; discriminate).
  assert (Hw : p_wasteCount (cardProps INITIAL_STATE) = Fin (inject_Z 2)) by reflexivity.
  assert (Hr : 0 <= 2 < Qceiling (50 # 1)) by (vm_compute; split; [discriminate|reflexivity]).
  assert (Hf : (Z.to_nat (Qceiling (50 # 1)) < 51)%nat) by (vm_compute; lia).
  split; [exact Hb|]. split; [exact Hq|]. split; [exact Hw|]. split; [exact Hr|].
  intros toFixed2.
  exact (chartData_current_point toFixed2 _ _ _ _ Hb Hq Hw Hr Hf).
Defined.



(** ** The detail fields stay defined *)

Lemma detailsDefined_iff (m : MaterialItem) :
  detailsDefined m = true <->
  isNaN (qtyPerUnit m) = false /\ isNaN (bufferUnits m) = false /\
  isNaN (unitCost m) = false.
Proof.
  unfold detailsDefined. rewrite !andb_true_iff, !negb_true_iff. tauto.
Qed.

Lemma updateRowItem_input_defined (b : number) (id : string) (e : MaterialEdit)
    (m : MaterialItem) :
  match e with
  | F_cost _ | F_id _ | F_name _ | F_notes _ => True
  | F_qtyPerUnit v | F_bufferUnits v | F_unitCost v => isNaN v = false
  end ->
  detailsDefined m = true ->
  detailsDefined (updateRowItem b id e m) = true.
Proof.
  intros He Hm. unfold updateRowItem.
  destruct (negb (String.eqb (m_id m) id)); [exact Hm|].
  apply detailsDefined_iff in Hm. destruct Hm as (Hq & Hb & Hu).
  apply detailsDefined_iff. destruct e; simpl; auto.
Qed.

(** X20: The numeric fields of the detailed editor never store NaN: if no
    detail field of the list is NaN, none is after a quantity, buffer or
    unit-cost input of any text, after adding or removing a row, or after a
    batch-size recalculation. *)
Theorem editor_keeps_details_defined (ms : list MaterialItem) (b : number)
    (id text : string) (now : N) :
  forallb detailsDefined ms = true ->
  forallb detailsDefined (onQtyPerUnitInput b id text ms) = true /\
  forallb detailsDefined (onBufferUnitsInput b id text ms) = true /\
  forallb detailsDefined (onUnitCostInput b id text ms) = true /\
  forallb detailsDefined (addRow now ms) = true /\
  forallb detailsDefined (removeRow id ms) = true /\
  forallb detailsDefined (recalculateMaterials ms b) = true.
Proof.
  intros H. rewrite forallb_forall in H.
  assert (U : forall e,
             match e with
             | F_cost _ | F_id _ | F_name _ | F_notes _ => True
             | F_qtyPerUnit v | F_bufferUnits v | F_unitCost v => isNaN v = false
             end ->
             forallb detailsDefined (updateRow b id e ms) = true).
  { intros e He. apply forallb_forall. intros m' Hm'.
    apply in_map_iff in Hm'. destruct Hm' as [m [<- Hm]].
    apply updateRowItem_input_defined; auto. }
  repeat split.
  - apply U, or_else_zero_not_NaN.
  - apply U, or_else_zero_not_NaN.
  - apply U, or_else_zero_not_NaN.
  - unfold addRow. rewrite forallb_app. apply andb_true_iff. split.
    + now apply forallb_forall.
    + reflexivity.
  - apply forallb_forall. intros m Hm. apply filter_In in Hm. apply H, Hm.
  - apply forallb_forall. intros m' Hm'.
    apply in_map_iff in Hm'. destruct Hm' as [m [<- Hm]].
    unfold recalculateItem.
    destruct (_ || _)%bool; [change (detailsDefined m = true)|]; apply H, Hm.
Qed.

Lemma editor_keeps_details_defined_witness :
  forallb detailsDefined (materials INITIAL_STATE) = true /\
  forallb detailsDefined
    (onUnitCostInput (num 50 1) "1" "abc" (materials INITIAL_STATE)) = true.
Proof.
  assert (H : forallb detailsDefined (materials INITIAL_STATE) = true)
    by reflexivity.
  split; [exact H|].
  exact (proj1 (proj2 (proj2
           (editor_keeps_details_defined _ (num 50 1) "1" "abc" 0%N H)))).
Defined.

(** X21: On a list without NaN detail fields the batch-size recalculation
    follows the plain formula: a calculated item gets
    cost = (qtyPerUnit * newBatchSize + bufferUnits) * unitCost. *)
Theorem recalculate_plain_formula (ms : list MaterialItem) (b : number) :
  forallb detailsDefined ms = true ->
  Forall2 (fun m m' =>
             isCalculated m = true ->
             cost m' = mul (add (mul (qtyPerUnit m) b) (bufferUnits m)) (unitCost m))
          ms (recalculateMaterials ms b).
Proof.
  intros H. rewrite forallb_forall in H.
  apply Forall2_map_r. intros m Hm E.
  rewrite (recalculateItem_calculated b m E). simpl.
  rewrite add_or_else_zero; [reflexivity|].
  apply H, detailsDefined_iff in Hm. tauto.
Qed.

Lemma recalculate_plain_formula_witness :
  let tube := mkMaterialItem "7" "Tube" zero (num 2 1) (num 3 1) (num 5 1) "6061" in
  forallb detailsDefined [tube] = true /\
  Forall2 (fun m m' =>
             isCalculated m = true ->
             cost m' = mul (add (mul (qtyPerUnit m) (num 50 1)) (bufferUnits m))
                           (unitCost m))
          [tube] (recalculateMaterials [tube] (num 50 1)).
Proof.
  cbv zeta.
  assert (H : forallb detailsDefined
                [mkMaterialItem "7" "Tube" zero (num 2 1) (num 3 1) (num 5 1) "6061"]
              = true) by reflexivity.
  split; [exact H|].
  exact (recalculate_plain_formula _ (num 50 1) H).
Defined.

(** ** The editor and the batch-size path agree *)

Lemma updateRowItem_fixpoint (b : number) (id : string) (e : MaterialEdit)
    (m : MaterialItem) :
  match e with
  | F_qtyPerUnit v | F_bufferUnits v | F_unitCost v => isNaN v = false
  | _ => False
  end ->
  detailsDefined m = true ->
  m_id m = id ->
  recalculateItem b (updateRowItem b id e m) = updateRowItem b id e m.
Proof.
  intros He Hm Hid. apply detailsDefined_iff in Hm. destruct Hm as (Hq & Hb & Hu).
  unfold updateRowItem. rewrite Hid, String.eqb_refl. cbn [negb].
  destruct e as [v|v|v|v|v|v|v]; try contradiction;
    unfold recalculateItem; cbn [setField withCost qtyPerUnit bufferUnits unitCost];
    match goal with
    | |- (if ?c then _ else _) = _ => destruct c; [|reflexivity]
    end;
    unfold withCost; cbn [m_id m_name cost qtyPerUnit bufferUnits unitCost notes];
    rewrite add_or_else_zero by assumption; reflexivity.
Qed.

(** X22: A row just edited in the detailed editor is already what the batch-size
    path would compute at the editor's batch size: recalculating it changes
    nothing, whether the edit left it calculated or manual. *)
Theorem editor_input_consistent (ms : list MaterialItem) (b : number)
    (id text : string) :
  forallb detailsDefined ms = true ->
  Forall (fun m' => m_id m' = id -> recalculateItem b m' = m')
         (onQtyPerUnitInput b id text ms) /\
  Forall (fun m' => m_id m' = id -> recalculateItem b m' = m')
         (onBufferUnitsInput b id text ms) /\
  Forall (fun m' => m_id m' = id -> recalculateItem b m' = m')
         (onUnitCostInput b id text ms).
Proof.
  intros H. rewrite forallb_forall in H.
  assert (U : forall e,
             match e with
             | F_qtyPerUnit v | F_bufferUnits v | F_unitCost v => isNaN v = false
             | _ => False
             end ->
             Forall (fun m' => m_id m' = id -> recalculateItem b m' = m')
                    (updateRow b id e ms)).
  { intros e He. apply Forall_forall. intros m' Hm' Hid.
    apply in_map_iff in Hm'. destruct Hm' as [m [<- Hm]].
    destruct (String.eqb (m_id m) id) eqn:E.
    - apply String.eqb_eq in E. apply updateRowItem_fixpoint; auto.
    - exfalso. unfold updateRowItem in Hid. rewrite E in Hid. simpl in Hid.
      apply String.eqb_neq in E. contradiction. }
  repeat split; apply U, or_else_zero_not_NaN.
Qed.

Lemma editor_input_consistent_witness :
  forallb detailsDefined (materials INITIAL_STATE) = true /\
  Forall (fun m' => m_id m' = "1"%string -> recalculateItem (num 50 1) m' = m')
         (onUnitCostInput (num 50 1) "1" "4.5" (materials INITIAL_STATE)).
Proof.
  assert (H : forallb detailsDefined (materials INITIAL_STATE) = true)
    by reflexivity.
  split; [exact H|].
  exact (proj2 (proj2 (editor_input_consistent _ (num 50 1) "1" "4.5" H))).
Defined.

(** ** Manual costs persist *)

(** X23: A cost typed into the sidebar for a manual-mode item stays: it is the
    item's cost after the write and after any later batch-size change. *)
Theorem manual_cost_persists (state : FinancialState) (id text : string)
    (b : number) (i : nat) (m : MaterialItem) :
  nth_error (materials state) i = Some m ->
  m_id m = id ->
  isCalculated m = false ->
  nth_error (materials (updateBatchSize b (onCostInput id text state))) i
  = Some (withCost m (or_else (parseFloat text) zero)).
Proof.
  intros Hi Hid Hc. unfold onCostInput, updateBatchSize. simpl.
  unfold recalculateMaterials. rewrite map_map, nth_error_map, Hi. simpl.
  rewrite Hid, String.eqb_refl. f_equal.
  now apply recalculateItem_not_calculated.
Qed.

Lemma manual_cost_persists_witness :
  let m := mkMaterialItem "2" "Packaging" (num 50 1) zero zero zero "Manual entry" in
  nth_error (materials INITIAL_STATE) 1 = Some m /\
  isCalculated m = false /\
  nth_error (materials (updateBatchSize (num 80 1) (onCostInput "2" "62.5" INITIAL_STATE))) 1
  = Some (withCost m (num 625 10)).
Proof.
  cbv zeta.
  assert (Hi : nth_error (materials INITIAL_STATE) 1
               = Some (mkMaterialItem "2" "Packaging" (num 50 1) zero zero zero
                         "Manual entry")) by reflexivity.
  assert (Hc : isCalculated (mkMaterialItem "2" "Packaging" (num 50 1) zero zero zero
                         "Manual entry") = false) by reflexivity.
  split; [exact Hi|]. split; [exact Hc|].
  rewrite (manual_cost_persists INITIAL_STATE "2" "62.5" (num 80 1) 1 _ Hi eq_refl Hc).
  vm_compute. reflexivity.
Defined.

(** ** Text edits leave the numbers alone *)

Lemma fold_add_map_same {A : Type} (f : A -> number) (g : A -> A) (l : list A) :
  (forall x, f (g x) = f x) ->
  forall acc,
    fold_left (fun acc x => add acc (f x)) (map g l) acc
    = fold_left (fun acc x => add acc (f x)) l acc.
Proof.
  intros H. induction l as [|x l IH]; intros acc; simpl; [reflexivity|].
  now rewrite H, IH.
Qed.

(** X24: Renaming a material or a development item, or changing an item's id,
    changes no derived number: COGS and every scenario result stay as they
    were. *)
Theorem renaming_is_neutral (state : FinancialState) (id v : string) :
  (COGS (handleMaterialChange id (F_name v) state) = COGS state /\
   scenarios (handleMaterialChange id (F_name v) state) = scenarios state) /\
  (COGS (handleMaterialChange id (F_id v) state) = COGS state /\
   scenarios (handleMaterialChange id (F_id v) state) = scenarios state) /\
  (COGS (handleDevCostChange id (G_name v) state) = COGS state /\
   scenarios (handleDevCostChange id (G_name v) state) = scenarios state) /\
  (COGS (handleDevCostChange id (G_id v) state) = COGS state /\
   scenarios (handleDevCostChange id (G_id v) state) = scenarios state).
Proof.
  assert (M : forall e,
             (forall m, cost (setField m e) = cost m) ->
             COGS (handleMaterialChange id e state) = COGS state).
  { intros e He. unfold COGS, materialCostPerUnit, totalBatchMaterialCost.
    rewrite handleMaterialChange_materials.
    rewrite (fold_add_map_same cost); [reflexivity|].
    intros m. destruct (String.eqb (m_id m) id); [apply He|reflexivity]. }
  assert (D : forall e,
             (forall c, amount (setCostField c e) = amount c) ->
             COGS (handleDevCostChange id e state) = COGS state).
  { intros e He. unfold COGS, amortPerUnit, totalDevCost, handleDevCostChange.
    cbn [devCosts updateDevCosts].
    rewrite (fold_add_map_same amount); [reflexivity|].
    intros c. destruct (String.eqb (ci_id c) id); [apply He|reflexivity]. }
  repeat split;
    try (apply M; reflexivity); try (apply D; reflexivity);
    apply scenarios_ext; try reflexivity;
    try (apply M; reflexivity); try (apply D; reflexivity).
Qed.

(** ** The waste slider *)

(** X25: With a batch of at least one unit, within the range where a JS
    number counts whole units exactly (up to 2^53), and a waste inside the
    slider's range [0, maxWaste], the card never takes its zero branches:
    the effective units are positive, the yield rate lies in (0, 1], and the
    cost multiplier is at least 1. *)
Theorem slider_range_safe (p : CardProps) (qb qw : Q) :
  p_batchSize p = Fin qb ->
  p_wasteCount p = Fin qw ->
  (1 <= qb)%Q ->
  (qb <= inject_Z (2 ^ 53))%Q ->
  (0 <= qw)%Q ->
  le (p_wasteCount p) (maxWaste p) = true ->
  gt (cardEffectiveUnits p) zero = true /\
  exists y c,
    yieldRate p = Fin y /\ (0 < y)%Q /\ (y <= 1)%Q /\
    costIncreaseFactor p = Fin c /\ (1 <= c)%Q.
Proof.
  intros Hb Hw Hqb _ Hqw Hle.
  assert (Hmax : (qw <= qb - 1)%Q).
  { unfold maxWaste in Hle. rewrite Hb, Hw in Hle.
    unfold num, sub, Math_max, gt, zero, Qltb in Hle.
    assert (E : Qle_bool 0 (Qred (qb - Qred (1 # 1))) = true).
    { apply Qle_bool_iff. rewrite !Qred_correct. change (1 # 1)%Q with 1%Q. lra. }
    rewrite E in Hle. cbn [negb] in Hle. unfold le, gt, Qltb in Hle.
    rewrite negb_involutive in Hle. apply Qle_bool_iff in Hle.
    rewrite !Qred_correct in Hle. exact Hle. }
  assert (Hpos : (0 < qb)%Q) by lra.
  assert (Heff : (0 < qb - qw)%Q) by lra.
  split.
  - unfold cardEffectiveUnits. rewrite Hb, Hw. unfold sub, gt, zero.
    apply Qltb_true_iff. now rewrite Qred_correct.
  - unfold costIncreaseFactor, yieldRate. rewrite Hb, Hw.
    rewrite (proj2 (Qltb_true_iff 0 qb) Hpos : gt (Fin qb) zero = true).
    unfold sub, div. rewrite (Qsign_pos qb Hpos).
    set (y := Qred (Qred (qb - qw) / qb)).
    assert (Ey : (y == (qb - qw) / qb)%Q).
    { unfold y. now rewrite !Qred_correct. }
    assert (Hy0 : (0 < y)%Q).
    { rewrite Ey. apply Qlt_shift_div_l; [exact Hpos|]. lra. }
    assert (Hy1 : (y <= 1)%Q).
    { rewrite Ey. apply Qle_shift_div_r; [exact Hpos|]. lra. }
    rewrite (proj2 (Qltb_true_iff 0 y) Hy0 : gt (Fin y) zero = true).
    unfold num. rewrite (Qsign_pos y Hy0).
    exists y, (Qred (Qred (1 # 1) / y)).
    split; [reflexivity|]. split; [exact Hy0|]. split; [exact Hy1|].
    split; [reflexivity|].
    rewrite !Qred_correct. change (1 # 1)%Q with 1%Q.
    apply Qle_shift_div_l; [exact Hy0|]. lra.
Qed.

Lemma slider_range_safe_witness :
  let p := cardProps INITIAL_STATE in
  p_batchSize p = Fin (50 # 1) /\ p_wasteCount p = Fin (2 # 1) /\
  (50 # 1 <= inject_Z (2 ^ 53))%Q /\
  le (p_wasteCount p) (maxWaste p) = true /\
  gt (cardEffectiveUnits p) zero = true.
Proof.
  cbv zeta.
  assert (Hb : p_batchSize (cardProps INITIAL_STATE) = Fin (50 # 1)) by reflexivity.
  assert (Hw : p_wasteCount (cardProps INITIAL_STATE) = Fin (2 # 1)) by reflexivity.
  assert (Hq : (50 # 1 <= inject_Z (2 ^ 53))%Q) by (vm_compute; discriminate).
  assert (Hle : le (p_wasteCount (cardProps INITIAL_STATE))
                   (maxWaste (cardProps INITIAL_STATE)) = true) by reflexivity.
  split; [exact Hb|]. split; [exact Hw|]. split; [exact Hq|]. split; [exact Hle|].
  apply (slider_range_safe _ (50 # 1) (2 # 1) Hb Hw); try exact Hle; try exact Hq;
    vm_compute; discriminate.
Defined.

(** ** The share column of the editor *)

Lemma fold_add_bounds (l : list MaterialItem) : forall a,
  (0 <= a)%Q ->
  Forall (fun m => exists c, cost m = Fin c /\ (0 <= c)%Q) l ->
  exists t,
    fold_left (fun sum m => add sum (cost m)) l (Fin a) = Fin t /\
    (a <= t)%Q /\
    Forall (fun m => exists c, cost m = Fin c /\ (c <= t)%Q) l.
Proof.
  induction l as [|m l IH]; intros a Ha Hl; simpl.
  - exists a. split; [reflexivity|]. split; [apply Qle_refl|constructor].
  - inversion Hl as [|? ? [c [Hc Hc0]] Hl']; subst.
    rewrite Hc. unfold add.
    assert (Hs : (0 <= Qred (a + c))%Q) by (rewrite Qred_correct; lra).
    destruct (IH (Qred (a + c)) Hs Hl') as (t & Ht & Hat & Hall).
    rewrite Qred_correct in Hat.
    exists t. split; [exact Ht|]. split; [lra|].
    constructor; [exists c; split; [exact Hc|lra]|exact Hall].
Qed.

(** X26: With finite, non-negative costs the share of every row is a whole
    number of percent between 0 and 100. *)
Theorem sharePercent_range (ms : list MaterialItem) (item : MaterialItem) :
  Forall (fun m => exists c, cost m = Fin c /\ (0 <= c)%Q) ms ->
  In item ms ->
  exists n : Z, sharePercent ms item = Fin (inject_Z n) /\ 0 <= n <= 100.
Proof.
  intros Hall Hin. unfold sharePercent, totalBatchCost.
  destruct (fold_add_bounds ms 0 (Qle_refl 0) Hall) as (t & Ht & Ht0 & Hle).
  change (Fin 0) with zero in Ht. rewrite Ht.
  rewrite Forall_forall in Hle. destruct (Hle item Hin) as (c & Hc & Hct).
  rewrite Forall_forall in Hall. destruct (Hall item Hin) as (c' & Hc' & Hc0).
  rewrite Hc in Hc'. injection Hc' as <-.
  destruct (gt (Fin t) zero) eqn:G; [|exists 0; split; [reflexivity|lia]].
  apply (Qltb_true_iff 0 t) in G.
  rewrite Hc. unfold div. rewrite (Qsign_pos t G). unfold mul, num, Math_round.
  eexists. split; [reflexivity|].
  set (x := Qred (Qred (c / t) * Qred (100 # 1))).
  assert (Hx : (x == c / t * 100)%Q).
  { unfold x. rewrite !Qred_correct. reflexivity. }
  assert (H0 : (0 <= c / t)%Q).
  { apply Qle_shift_div_l; [exact G|]. lra. }
  assert (H1 : (c / t <= 1)%Q).
  { apply Qle_shift_div_r; [exact G|]. lra. }
  split.
  - change 0 with (Qfloor 0). apply Qfloor_resp_le. rewrite Hx. lra.
  - change 100 with (Qfloor (201 # 2)). apply Qfloor_resp_le. rewrite Hx. lra.
Qed.

Lemma sharePercent_range_witness :
  let ms := materials INITIAL_STATE in
  let item := mkMaterialItem "2" "Packaging" (num 50 1) zero zero zero "Manual entry" in
  Forall (fun m => exists c, cost m = Fin c /\ (0 <= c)%Q) ms /\
  In item ms /\
  exists n : Z, sharePercent ms item = Fin (inject_Z n) /\ 0 <= n <= 100.
Proof.
  cbv zeta.
  assert (Hin : In (mkMaterialItem "2" "Packaging" (num 50 1) zero zero zero
                      "Manual entry") (materials INITIAL_STATE))
    by (right; left; reflexivity).
  assert (Hall : Forall (fun m => exists c, cost m = Fin c /\ (0 <= c)%Q)
                        (materials INITIAL_STATE)).
  { repeat constructor; eexists; (split; [reflexivity|vm_compute; discriminate]). }
  split; [exact Hall|]. split; [exact Hin|].
  exact (sharePercent_range _ _ Hall Hin).
Defined.

(** ** Adding and removing *)

Lemma filter_snoc_fresh {A : Type} (keep : A -> bool) (l : list A) (x : A) :
  keep x = false -> (forall y, In y l -> keep y = true) ->
  filter keep (l ++ [x]) = l.
Proof.
  intros Hx Hl. rewrite filter_app. simpl. rewrite Hx, app_nil_r.
  apply forallb_filter_id, forallb_forall, Hl.
Qed.

(** X27: Removing the item that was just added restores the list, provided the
    generated id is not already in use: for the editor's rows, for the
    sidebar's materials and for the development items. *)
Theorem add_then_remove (now : N) (state : FinancialState)
    (localMaterials : list MaterialItem) :
  ((forall m, In m localMaterials -> m_id m <> toStringN now) ->
   removeRow (toStringN now) (addRow now localMaterials) = localMaterials) /\
  (let newId := (toStringN (N.of_nat (List.length (materials state)) + 1)
                 ++ toStringN now)%string in
   (forall m, In m (materials state) -> m_id m <> newId) ->
   removeMaterial newId (addMaterial now state) = state) /\
  (let newId := (toStringN (N.of_nat (List.length (devCosts state)) + 1)
                 ++ toStringN now)%string in
   (forall c, In c (devCosts state) -> ci_id c <> newId) ->
   removeDevCost newId (addDevCost now state) = state).
Proof.
  split; [|split]; cbv zeta; intros H.
  - unfold removeRow, addRow. apply filter_snoc_fresh.
    + simpl. now rewrite String.eqb_refl.
    + intros m Hm. apply negb_true_iff, String.eqb_neq, H, Hm.
  - unfold removeMaterial, addMaterial, updateMaterials. simpl.
    rewrite filter_snoc_fresh.
    + now destruct state.
    + simpl. now rewrite String.eqb_refl.
    + intros m Hm. apply negb_true_iff, String.eqb_neq, H, Hm.
  - unfold removeDevCost, addDevCost, updateDevCosts. simpl.
    rewrite filter_snoc_fresh.
    + now destruct state.
    + simpl. now rewrite String.eqb_refl.
    + intros c Hc. apply negb_true_iff, String.eqb_neq, H, Hc.
Qed.

Lemma add_then_remove_witness :
  (forall m, In m (materials INITIAL_STATE) -> m_id m <> "41730"%string) /\
  removeMaterial "41730" (addMaterial 1730 INITIAL_STATE) = INITIAL_STATE.
Proof.
  assert (H : forall m, In m (materials INITIAL_STATE) -> m_id m <> "41730"%string).
  { intros m Hm. simpl in Hm.
    repeat (destruct Hm as [<-|Hm]; [discriminate|]). destruct Hm. }
  split; [exact H|].
  exact (proj1 (proj2 (add_then_remove 1730 INITIAL_STATE [])) H).
Defined.

(** X28: The editor's id is the clock reading alone: two rows added at the same
    reading share their id, and removing one of them removes both. *)
Theorem addRow_same_clock (now : N) (localMaterials : list MaterialItem) :
  (forall m, In m localMaterials -> m_id m <> toStringN now) ->
  let rows := addRow now (addRow now localMaterials) in
  List.length rows = S (S (List.length localMaterials)) /\
  removeRow (toStringN now) rows = localMaterials.
Proof.
  intros H. cbv zeta. unfold addRow, removeRow. split.
  - rewrite !length_app. simpl. lia.
  - rewrite <- app_assoc, filter_app. simpl. rewrite String.eqb_refl. simpl.
    rewrite app_nil_r. apply forallb_filter_id, forallb_forall.
    intros m Hm. apply negb_true_iff, String.eqb_neq, H, Hm.
Qed.

Lemma addRow_same_clock_witness :
  (forall m, In m (materials INITIAL_STATE) -> m_id m <> toStringN 1730) /\
  removeRow (toStringN 1730) (addRow 1730 (addRow 1730 (materials INITIAL_STATE)))
  = materials INITIAL_STATE.
Proof.
  assert (H : forall m, In m (materials INITIAL_STATE) -> m_id m <> toStringN 1730).
  { intros m Hm. simpl in Hm.
    repeat (destruct Hm as [<-|Hm]; [discriminate|]). destruct Hm. }
  split; [exact H|].
  exact (proj2 (addRow_same_clock 1730 _ H)).
Defined.

(** ** Waste and unit cost *)

(** X29: More waste never lowers the material cost per unit: for a finite batch
    size, a non-negative material total and two waste counts
    w1 <= w2 < batchSize, the cost per unit at w2 is at least the one at
    w1. *)
Theorem waste_raises_unit_cost (state : FinancialState) (b t w1 w2 : Q) :
  batchSize state = Fin b ->
  totalBatchMaterialCost state = Fin t ->
  (0 <= t)%Q -> (w1 <= w2)%Q -> (w2 < b)%Q ->
  le (materialCostPerUnit (updateWasteCount (Fin w1) state))
     (materialCostPerUnit (updateWasteCount (Fin w2) state)) = true.
Proof.
  intros Hb Ht T0 H12 H2b.
  assert (E : forall w, (w < b)%Q ->
            exists e, (e == b - w)%Q /\ (0 < e)%Q /\
              materialCostPerUnit (updateWasteCount (Fin w) state)
              = Fin (Qred (t / e))).
  { intros w Hw. exists (Qred (b - w)).
    assert (Hq : (Qred (b - w) == b - w)%Q) by apply Qred_correct.
    assert (Hpos : (0 < Qred (b - w))%Q) by (rewrite Hq; lra).
    split; [exact Hq|]. split; [exact Hpos|].
    unfold materialCostPerUnit, effectiveUnits, totalBatchMaterialCost.
    cbn [updateWasteCount batchSize wasteCount materials].
    fold (totalBatchMaterialCost state). rewrite Hb, Ht.
    change (sub (Fin b) (Fin w)) with (Fin (Qred (b - w))).
    assert (G : gt (Fin (Qred (b - w))) zero = true)
      by (apply Qltb_true_iff; exact Hpos).
    rewrite (max_zero_of_gt _ G), G. unfold div.
    now rewrite (Qsign_pos _ Hpos). }
  destruct (E w1) as (e1 & He1 & P1 & ->); [lra|].
  destruct (E w2) as (e2 & He2 & P2 & ->); [lra|].
  unfold le, gt, Qltb. rewrite negb_involutive. apply Qle_bool_iff.
  rewrite !Qred_correct.
  apply Qle_shift_div_l; [exact P2|].
  assert (Hne : ~ (e1 == 0)%Q) by (intros Z; rewrite Z in P1; discriminate).
  assert (Hd : (0 <= t / e1)%Q) by (apply Qle_shift_div_l; [exact P1|lra]).
  assert (Hm : (t / e1 * e1 == t)%Q).
  { unfold Qdiv. rewrite <- Qmult_assoc, (Qmult_comm (/ e1)).
    rewrite Qmult_inv_r by exact Hne. apply Qmult_1_r. }
  rewrite <- Hm at 2. rewrite !(Qmult_comm (t / e1)).
  apply Qmult_le_compat_r; [|exact Hd]. lra.
Qed.

Lemma waste_raises_unit_cost_witness :
  batchSize INITIAL_STATE = Fin (50 # 1) /\
  totalBatchMaterialCost INITIAL_STATE = Fin (450 # 1) /\
  le (materialCostPerUnit (updateWasteCount (Fin (2 # 1)) INITIAL_STATE))
     (materialCostPerUnit (updateWasteCount (Fin (10 # 1)) INITIAL_STATE)) = true.
Proof.
  assert (Hb : batchSize INITIAL_STATE = Fin (50 # 1)) by reflexivity.
  assert (Ht : totalBatchMaterialCost INITIAL_STATE = Fin (450 # 1))
    by (vm_compute; reflexivity).
  split; [exact Hb|]. split; [exact Ht|].
  apply (waste_raises_unit_cost INITIAL_STATE (50 # 1) (450 # 1) (2 # 1) (10 # 1) Hb Ht);
    vm_compute; (discriminate || reflexivity).
Defined.
